(** * Eclipso: navigation history, session flags and privacy policy

    A shallow embedding of the stateful core of the Eclipso browser shell
    ([browser.py], [browser_broken.py] and the [privacy] package) together
    with the properties its specification states about it.

    Python strings are modelled by [string]: a sequence of characters whose
    code points lie below 256.  Dictionaries with string keys are [gmap]s,
    integers are [Z], and an attribute that may be missing from an object
    (tested by [hasattr]) is an [option]. *)

From Stdlib Require Import ZArith Ascii String List Bool Lia QArith.
From stdpp Require Import base option list strings gmap.

Local Open Scope string_scope.
Local Open Scope Z_scope.
Local Open Scope list_scope.

(** ** Python string primitives *)

Module PyStr.

(** The double-quote character (code point 34). *)
Definition dq : string := String (ascii_of_nat 34) EmptyString.

(** [s.startswith(p)] *)
Fixpoint startswith (p s : string) : bool :=
  match p with
  | EmptyString => true
  | String a p' =>
      match s with
      | EmptyString => false
      | String b s' => if Ascii.eqb a b then startswith p' s' else false
      end
  end.

(** [s.startswith((p1, ..., pn))]: a tuple of prefixes. *)
Definition startswith_any (ps : list string) (s : string) : bool :=
  existsb (fun p => startswith p s) ps.

(** [sub in s]: [sub] occurs in [s] as a contiguous run of characters. *)
Fixpoint contains (sub s : string) : bool :=
  startswith sub s ||
  match s with
  | EmptyString => false
  | String _ s' => contains sub s'
  end.

(** [str.isspace] on one character, for code points below 256:
    TAB, LF, VT, FF, CR, the separators 0x1C to 0x1F, SPACE, NEL (0x85)
    and NBSP (0xA0). *)
Definition isspace (c : ascii) : bool :=
  let n := N_of_ascii c in
  ((9 <=? n) && (n <=? 13) || (28 <=? n) && (n <=? 32)
   || (n =? 133) || (n =? 160))%N.

(** [s.lstrip()] *)
Fixpoint lstrip (s : string) : string :=
  match s with
  | EmptyString => EmptyString
  | String c s' => if isspace c then lstrip s' else s
  end.

(** [s.rstrip()] *)
Fixpoint rstrip (s : string) : string :=
  match s with
  | EmptyString => EmptyString
  | String c s' =>
      match rstrip s' with
      | EmptyString => if isspace c then EmptyString else String c EmptyString
      | r => String c r
      end
  end.

(** [s.strip()] *)
Definition strip (s : string) : string := rstrip (lstrip s).

(** [str.lower] on one character, for code points below 256: A to Z and
    the Latin-1 capitals 0xC0 to 0xDE (0xD7, the multiplication sign,
    apart) move up by 32. *)
Definition lower_char (c : ascii) : ascii :=
  let n := N_of_ascii c in
  if ((65 <=? n) && (n <=? 90)
      || (192 <=? n) && (n <=? 222) && negb (n =? 215))%N
  then ascii_of_N (n + 32) else c.

(** [s.lower()] *)
Fixpoint lower (s : string) : string :=
  match s with
  | EmptyString => EmptyString
  | String c s' => String (lower_char c) (lower s')
  end.

(** [s.upper()] is not needed: it only feeds a [print]. *)

End PyStr.

(** ** Python sequences *)

Module PySeq.

(** [l[:k]]: a negative stop counts from the end and the result is
    clipped to the sequence. *)
Definition slice_to {A : Type} (l : list A) (k : Z) : list A :=
  if k <? 0 then take (Z.to_nat (Z.max 0 (Z.of_nat (length l) + k))) l
  else take (Z.to_nat k) l.

(** The position read by [l[i]]: a negative [i] counts from the end;
    [None] is Python's [IndexError]. *)
Definition index_of {A : Type} (l : list A) (i : Z) : option nat :=
  let n := Z.of_nat (length l) in
  let j := if i <? 0 then i + n else i in
  if (0 <=? j) && (j <? n) then Some (Z.to_nat j) else None.

(** [len(l)] *)
Definition len {A : Type} (l : list A) : Z := Z.of_nat (length l).

End PySeq.

(** ** Method bodies: state and exceptions

    A method body runs over the attributes of its object and may raise.
    An exception keeps the assignments made before it. *)

Inductive PyExn : Type :=
| IndexError
| KeyError (key : string).

Inductive Outcome (A : Type) : Type :=
| Ok (a : A)
| Raised (e : PyExn).
Arguments Ok {A} a.
Arguments Raised {A} e.

Definition Py (S A : Type) : Type := S -> Outcome A * S.

Definition ret {S A : Type} (a : A) : Py S A := fun s => (Ok a, s).

Definition bind {S A B : Type} (m : Py S A) (k : A -> Py S B) : Py S B :=
  fun s =>
    match m s with
    | (Ok a, s') => k a s'
    | (Raised e, s') => (Raised e, s')
    end.

Definition raise {S A : Type} (e : PyExn) : Py S A := fun s => (Raised e, s).

Definition gets {S A : Type} (f : S -> A) : Py S A := fun s => (Ok (f s), s).

Definition modify {S : Type} (f : S -> S) : Py S unit := fun s => (Ok tt, f s).

(** Run a computation of a component inside the object that owns it. *)
Definition zoom {S T A : Type} (get : S -> T) (set : T -> S -> S)
    (m : Py T A) : Py S A :=
  fun s =>
    match m (get s) with
    | (o, t') => (o, set t' s)
    end.

Declare Scope py_scope.
Delimit Scope py_scope with py.
Notation "x <- c ;; k" := (bind c (fun x => k))
  (at level 100, c at next level, right associativity) : py_scope.
Notation "c ;; k" := (bind c (fun _ => k))
  (at level 100, right associativity) : py_scope.

(** The state a method call leaves behind and whether it returned. *)
Definition exec {S A : Type} (m : Py S A) (s : S) : S := snd (m s).
Definition returns {S A : Type} (m : Py S A) (s : S) : Prop :=
  exists a, fst (m s) = Ok a.

(** [l[i]] as a computation. *)
Definition getitem {S A : Type} (l : list A) (i : Z) : Py S A :=
  match PySeq.index_of l i with
  | Some j =>
      match l !! j with
      | Some x => ret x
      | None => raise IndexError
      end
  | None => raise IndexError
  end.

(** ** The random source

    [random.choice] draws from the interpreter's generator.  The generator
    is an injected stream of naturals with a cursor, so that a session can
    be replayed. *)

Record Rng : Type := { draws : nat -> nat; cursor : nat }.

Definition randbelow (n : nat) : Py Rng nat :=
  fun r => (Ok (Nat.modulo (draws r (cursor r)) n),
            {| draws := draws r; cursor := S (cursor r) |}).

(** [random.choice(seq)]; an empty sequence raises [IndexError]. *)
Definition choice {A : Type} (seq : list A) : Py Rng A :=
  match seq with
  | [] => raise IndexError
  | _ :: _ =>
      (i <- randbelow (length seq) ;;
       match seq !! i with
       | Some x => ret x
       | None => raise IndexError
       end)%py
  end.

(** ** privacy/fingerprint_protector.py *)

(** The dictionary built by [generate_random_fingerprint], one field per
    key. *)
Module Fingerprint.
Record t : Type := {
  user_agent : string;
  screen_resolution : string;
  timezone : string;
  language : string;
  plugins : string;
  platform : string;
  color_depth : string;
  pixel_ratio : Q;
  webgl_vendor : string;
  webgl_renderer : string;
  webgl_version : string;
  webgl_extensions : string;
  webgl_shading_language_version : string
}.
End Fingerprint.

Module FingerPrintProtector.

Record t : Type := {
  user_agents : list string;
  screen_resolution : list string;
  timezone : list string;
  language : list string;
  plugins : list string
}.

Definition __init__ : t := {|
  user_agents :=
    [ "Mozilla/5.0 (Macintosh; Intel Mac OS X 10_15_7) AppleWebKit/537.36";
      "Mozilla/5.0 (Windows NT 10.0; Win64; x64) AppleWebKit/537.36";
      "Mozilla/5.0 (X11; Linux x86_64) AppleWebKit/537.36";
      "Mozilla/5.0 (iPhone; CPU iPhone OS 14_0 like Mac OS X) AppleWebKit/605.1.15" ];
  screen_resolution :=
    [ "1920x1080"; "1366x768"; "1280x720"; "1024x768"; "800x600";
      "640x480"; "320x240" ];
  timezone :=
    [ "America/New_York"; "America/Los_Angeles"; "America/Chicago";
      "America/Denver"; "America/Phoenix"; "America/New_York";
      "America/Los_Angeles"; "America/Chicago"; "America/Denver";
      "America/Phoenix"; "America/New_York"; "America/Los_Angeles" ];
  language := [ "en-US"; "en-GB"; "en-CA"; "en-AU"; "en-NZ"; "en-ZA" ];
  plugins := [ "Flash"; "Java"; "Silverlight"; "QuickTime"; "RealPlayer" ]
|}.

(** The dictionary display evaluates its fifteen items in order; the keys
    [webgl_vendor] and [webgl_renderer] occur twice and keep the value of
    their second draw. *)
Definition generate_random_fingerprint (self : t) : Py Rng Fingerprint.t :=
  (ua <- choice (user_agents self) ;;
   sr <- choice (screen_resolution self) ;;
   tz <- choice (timezone self) ;;
   lang <- choice (language self) ;;
   plug <- choice (plugins self) ;;
   plat <- choice ["MacIntel"; "Win32"; "Linux x86_64"; "iPhone"; "iPad"] ;;
   depth <- choice ["8"; "16"; "24"; "32"] ;;
   ratio <- choice [1%Q; 2%Q; (3 # 2)%Q] ;;
   _ <- choice ["Google"; "Mozilla"; "Apple"; "Microsoft"] ;;
   _ <- choice ["Intel"; "NVIDIA"; "AMD"; "Apple"] ;;
   ver <- choice ["1"; "2"; "3"] ;;
   ext <- choice ["WEBGL_depth_texture"; "WEBGL_draw_buffers";
                  "WEBGL_lose_context"] ;;
   sl <- choice ["1.0"; "1.1"; "1.2"; "1.3"; "1.4"; "1.5"] ;;
   vendor <- choice ["Google"; "Mozilla"; "Apple"; "Microsoft"] ;;
   renderer <- choice ["Intel"; "NVIDIA"; "AMD"; "Apple"] ;;
   ret {| Fingerprint.user_agent := ua;
          Fingerprint.screen_resolution := sr;
          Fingerprint.timezone := tz;
          Fingerprint.language := lang;
          Fingerprint.plugins := plug;
          Fingerprint.platform := plat;
          Fingerprint.color_depth := depth;
          Fingerprint.pixel_ratio := ratio;
          Fingerprint.webgl_vendor := vendor;
          Fingerprint.webgl_renderer := renderer;
          Fingerprint.webgl_version := ver;
          Fingerprint.webgl_extensions := ext;
          Fingerprint.webgl_shading_language_version := sl |})%py.

(** The header dictionary of [get_headers_with_random_fingerprints]: it
    generates a fingerprint of its own at every call. *)
Definition get_headers_with_random_fingerprints (self : t)
  : Py Rng (gmap string string) :=
  (fingerprint <- generate_random_fingerprint self ;;
   ret (<["Sec-CH-UA-Platform" :=
            PyStr.dq +:+ Fingerprint.platform fingerprint +:+ PyStr.dq]>
       (<["Sec-CH-UA-Mobile" := "?0"]>
       (<["Sec-CH-UA" :=
            PyStr.dq +:+ "Not_A Brand" +:+ PyStr.dq +:+ ";v=" +:+ PyStr.dq
            +:+ "8" +:+ PyStr.dq +:+ ", " +:+ PyStr.dq +:+ "Chromium"
            +:+ PyStr.dq +:+ ";v=" +:+ PyStr.dq +:+ "120" +:+ PyStr.dq]>
       (<["Upgrade-Insecure-Requests" := "1"]>
       (<["Connection" := "Keep-alive"]>
       (<["DNT" := "1"]>
       (<["Accept-Encoding" := "gzip, deflate"]>
       (<["Accept-Language" := Fingerprint.language fingerprint]>
       (<["Accept" :=
            "text/html, application/xhtml+xml, application/xml;q=0.9, */*;q=0.8"]>
       (<["User-Agent" := Fingerprint.user_agent fingerprint]>
        (∅ : gmap string string))))))))))))%py.

End FingerPrintProtector.

(** ** privacy/cookie_manager.py *)

Module cookie_manager.

(** The one attribute of [http.cookiejar.Cookie] that is read. *)
Record Cookie : Type := { domain : string }.

(** [self.session] (a [requests.Session]) is never read and is left out. *)
Record t : Type := { cookie_policy : string }.

Definition __init__ : t := {| cookie_policy := "block_third_party" |}.

Definition should_accept_cookie (self : t) (cookie : Cookie)
    (request_domain : string) : bool :=
  if String.eqb (cookie_policy self) "block_all" then false
  else if String.eqb (cookie_policy self) "block_third_party"
       then PyStr.contains request_domain (domain cookie)
       else true.

End cookie_manager.

(** ** privacy/enhanced_protector.py *)

Module EnhancedPrivacyProtector.

Record t : Type := {
  trackers : gset string;
  ad_domains : gset string;
  search_trackers : gset string
}.

Definition __init__ : t := {|
  trackers := list_to_set
    [ "facebook.com"; "facebook.net"; "fbcdn.net";
      "instagram.com"; "instagram.net";
      "twitter.com"; "twimg.com"; "t.co";
      "linkedin.com"; "licdn.com";
      "tiktok.com"; "tiktokcdn.com";
      "google-analytics.com"; "googletagmanager.com";
      "googleadservices.com"; "doubleclick.net";
      "googlesyndication.com"; "google.com/ads";
      "amazon-adsystem.com"; "amazon.com/ads";
      "bing.com/ads"; "yahoo.com/ads";
      "hotjar.com"; "mixpanel.com"; "amplitude.com";
      "segment.com"; "optimizely.com"; "crazyegg.com";
      "adnxs.com"; "adsystem.com"; "adtech.com";
      "criteo.com"; "taboola.com"; "outbrain.com";
      "adroll.com"; "adform.com"; "pubmatic.com" ];
  ad_domains := list_to_set
    [ "googlesyndication.com"; "doubleclick.net"; "amazon-adsystem.com";
      "adnxs.com"; "adsystem.com"; "adtech.com" ];
  search_trackers := list_to_set
    [ "google.com/search"; "bing.com/search"; "yahoo.com/search";
      "duckduckgo.com/search"; "search.yahoo.com" ]
|}.


Definition get_privacy_headers (self : t) : gmap string string :=
  <["Sec-Fetch-Site" := "none"]>
  (<["Sec-Fetch-Mode" := "navigate"]>
  (<["Sec-Fetch-Dest" := "document"]>
  (<["Upgrade-Insecure-Requests" := "1"]>
  (<["Connection" := "keep-alive"]>
  (<["DNT" := "1"]>
  (<["Accept-Encoding" := "gzip, deflate"]>
  (<["Accept-Language" := "en-US,en;q=0.5"]>
  (<["Accept" :=
       "text/html,application/xhtml+xml,application/xml;q=0.9,image/webp,*/*;q=0.8"]>
  (<["User-Agent" :=
       "Mozilla/5.0 (Macintosh; Intel Mac OS X 10_15_7) AppleWebKit/537.36 (KHTML, like Gecko) Chrome/120.0.0.0 Safari/537.36"]>
   (∅ : gmap string string)))))))))).

End EnhancedPrivacyProtector.

(** ** The request interceptor of browser_broken.py *)

(** [QWebEngineUrlRequestInfo] as the interceptor sees it: the URL of the
    request, the headers set on it, and whether [block(True)] was called
    (the engine drops a blocked request). *)
Module RequestInfo.

Record t : Type := {
  requestUrl : string;
  httpHeaders : gmap string string;
  blocked : bool
}.

Definition setHttpHeader (name value : string) (info : t) : t :=
  {| requestUrl := requestUrl info;
     httpHeaders := <[name := value]> (httpHeaders info);
     blocked := blocked info |}.

(** A request as the engine hands it over. *)
Definition incoming (url : string) : t :=
  {| requestUrl := url; httpHeaders := ∅; blocked := false |}.

End RequestInfo.

Module PrivacyRequestInterceptor.

Definition google_essential_domains : list string :=
  [ "google.com"; "googleapis.com"; "gstatic.com"; "googleusercontent.com";
    "google-analytics.com"; "googletagmanager.com"; "doubleclick.net" ].

(** [any(domain in url for domain in google_essential_domains)] *)
Definition is_google_essential (url : string) : bool :=
  existsb (fun domain => PyStr.contains domain url) google_essential_domains.

(** The headers set on every request, in the order of the calls. *)
Definition set_headers (info : RequestInfo.t) : RequestInfo.t :=
  RequestInfo.setHttpHeader "Cache-Control" "max-age=0"
  (RequestInfo.setHttpHeader "Sec-Fetch-User" "?1"
  (RequestInfo.setHttpHeader "Sec-Fetch-Site" "none"
  (RequestInfo.setHttpHeader "Sec-Fetch-Mode" "navigate"
  (RequestInfo.setHttpHeader "Sec-Fetch-Dest" "document"
  (RequestInfo.setHttpHeader "Upgrade-Insecure-Requests" "1"
  (RequestInfo.setHttpHeader "Connection" "keep-alive"
  (RequestInfo.setHttpHeader "DNT" "1"
  (RequestInfo.setHttpHeader "Accept-Encoding" "gzip, deflate, br"
  (RequestInfo.setHttpHeader "Accept-Language" "en-US,en;q=0.9"
  (RequestInfo.setHttpHeader "Accept"
     "text/html,application/xhtml+xml,application/xml;q=0.9,image/avif,image/webp,image/apng,*/*;q=0.8,application/signed-exchange;v=b3;q=0.7"
     info)))))))))).

(** [interceptRequest(info)]: the request after the call and the lines
    printed (the glyph that starts the printed line is left out).  The
    method returns early for an essential resource and falls off its end
    otherwise; neither path calls [block]. *)
Definition interceptRequest (info : RequestInfo.t)
  : RequestInfo.t * list string :=
  let url := RequestInfo.requestUrl info in
  let info := set_headers info in
  if is_google_essential url
  then (info, ["Allowing Google resource: " +:+ url])
  else (info, []).

End PrivacyRequestInterceptor.

(** ** The browser window *)

(** Calls made on the embedded engine ([self.web_view] and its profile). *)
Inductive EngineCall : Type :=
| SetUrl (url : string)
| Reload
| SetHttpUserAgent (ua : string)
| Repaint
| Show
| Raise_
| ActivateWindow.

(** The attributes of a [PrivacyBrowser] window.  [web_view] is the list
    of calls made on the engine, latest first; a widget is the part of its
    state the code reads or writes.  The four flags are attributes that
    exist only once assigned ([hasattr]).  [random] is the generator of
    the interpreter, carried with the window that draws from it. *)
Record PrivacyBrowser : Type := {
  history : list string;
  current_index : Z;
  current_url : string;
  address_bar : string;
  status_bar : string;
  back_btn : bool;
  forward_btn : bool;
  web_view : list EngineCall;
  fingerprint_protector : FingerPrintProtector.t;
  fingerprint_applied : option bool;
  current_fingerprint : option Fingerprint.t;
  google_fixes_applied : option bool;
  google_js_applied : option bool;
  random : Rng
}.

Definition set_history (v : list string) (s : PrivacyBrowser) :=
  {| history := v; current_index := current_index s;
     current_url := current_url s; address_bar := address_bar s;
     status_bar := status_bar s; back_btn := back_btn s;
     forward_btn := forward_btn s; web_view := web_view s;
     fingerprint_protector := fingerprint_protector s;
     fingerprint_applied := fingerprint_applied s;
     current_fingerprint := current_fingerprint s;
     google_fixes_applied := google_fixes_applied s;
     google_js_applied := google_js_applied s; random := random s |}.

Definition set_current_index (v : Z) (s : PrivacyBrowser) :=
  {| history := history s; current_index := v;
     current_url := current_url s; address_bar := address_bar s;
     status_bar := status_bar s; back_btn := back_btn s;
     forward_btn := forward_btn s; web_view := web_view s;
     fingerprint_protector := fingerprint_protector s;
     fingerprint_applied := fingerprint_applied s;
     current_fingerprint := current_fingerprint s;
     google_fixes_applied := google_fixes_applied s;
     google_js_applied := google_js_applied s; random := random s |}.

Definition set_current_url (v : string) (s : PrivacyBrowser) :=
  {| history := history s; current_index := current_index s;
     current_url := v; address_bar := address_bar s;
     status_bar := status_bar s; back_btn := back_btn s;
     forward_btn := forward_btn s; web_view := web_view s;
     fingerprint_protector := fingerprint_protector s;
     fingerprint_applied := fingerprint_applied s;
     current_fingerprint := current_fingerprint s;
     google_fixes_applied := google_fixes_applied s;
     google_js_applied := google_js_applied s; random := random s |}.

(** [self.address_bar.setText(v)], also what typing [v] does. *)
Definition setText (v : string) (s : PrivacyBrowser) :=
  {| history := history s; current_index := current_index s;
     current_url := current_url s; address_bar := v;
     status_bar := status_bar s; back_btn := back_btn s;
     forward_btn := forward_btn s; web_view := web_view s;
     fingerprint_protector := fingerprint_protector s;
     fingerprint_applied := fingerprint_applied s;
     current_fingerprint := current_fingerprint s;
     google_fixes_applied := google_fixes_applied s;
     google_js_applied := google_js_applied s; random := random s |}.

(** [self.status_bar.showMessage(v)] *)
Definition showMessage (v : string) (s : PrivacyBrowser) :=
  {| history := history s; current_index := current_index s;
     current_url := current_url s; address_bar := address_bar s;
     status_bar := v; back_btn := back_btn s;
     forward_btn := forward_btn s; web_view := web_view s;
     fingerprint_protector := fingerprint_protector s;
     fingerprint_applied := fingerprint_applied s;
     current_fingerprint := current_fingerprint s;
     google_fixes_applied := google_fixes_applied s;
     google_js_applied := google_js_applied s; random := random s |}.

(** [self.back_btn.setEnabled(v)] *)
Definition set_back_btn (v : bool) (s : PrivacyBrowser) :=
  {| history := history s; current_index := current_index s;
     current_url := current_url s; address_bar := address_bar s;
     status_bar := status_bar s; back_btn := v;
     forward_btn := forward_btn s; web_view := web_view s;
     fingerprint_protector := fingerprint_protector s;
     fingerprint_applied := fingerprint_applied s;
     current_fingerprint := current_fingerprint s;
     google_fixes_applied := google_fixes_applied s;
     google_js_applied := google_js_applied s; random := random s |}.

(** [self.forward_btn.setEnabled(v)] *)
Definition set_forward_btn (v : bool) (s : PrivacyBrowser) :=
  {| history := history s; current_index := current_index s;
     current_url := current_url s; address_bar := address_bar s;
     status_bar := status_bar s; back_btn := back_btn s;
     forward_btn := v; web_view := web_view s;
     fingerprint_protector := fingerprint_protector s;
     fingerprint_applied := fingerprint_applied s;
     current_fingerprint := current_fingerprint s;
     google_fixes_applied := google_fixes_applied s;
     google_js_applied := google_js_applied s; random := random s |}.

(** One more call on the engine. *)
Definition engine (c : EngineCall) (s : PrivacyBrowser) :=
  {| history := history s; current_index := current_index s;
     current_url := current_url s; address_bar := address_bar s;
     status_bar := status_bar s; back_btn := back_btn s;
     forward_btn := forward_btn s; web_view := c :: web_view s;
     fingerprint_protector := fingerprint_protector s;
     fingerprint_applied := fingerprint_applied s;
     current_fingerprint := current_fingerprint s;
     google_fixes_applied := google_fixes_applied s;
     google_js_applied := google_js_applied s; random := random s |}.

Definition set_fingerprint_applied (v : bool) (s : PrivacyBrowser) :=
  {| history := history s; current_index := current_index s;
     current_url := current_url s; address_bar := address_bar s;
     status_bar := status_bar s; back_btn := back_btn s;
     forward_btn := forward_btn s; web_view := web_view s;
     fingerprint_protector := fingerprint_protector s;
     fingerprint_applied := Some v;
     current_fingerprint := current_fingerprint s;
     google_fixes_applied := google_fixes_applied s;
     google_js_applied := google_js_applied s; random := random s |}.

Definition set_current_fingerprint (v : Fingerprint.t) (s : PrivacyBrowser) :=
  {| history := history s; current_index := current_index s;
     current_url := current_url s; address_bar := address_bar s;
     status_bar := status_bar s; back_btn := back_btn s;
     forward_btn := forward_btn s; web_view := web_view s;
     fingerprint_protector := fingerprint_protector s;
     fingerprint_applied := fingerprint_applied s;
     current_fingerprint := Some v;
     google_fixes_applied := google_fixes_applied s;
     google_js_applied := google_js_applied s; random := random s |}.

Definition set_google_fixes_applied (v : bool) (s : PrivacyBrowser) :=
  {| history := history s; current_index := current_index s;
     current_url := current_url s; address_bar := address_bar s;
     status_bar := status_bar s; back_btn := back_btn s;
     forward_btn := forward_btn s; web_view := web_view s;
     fingerprint_protector := fingerprint_protector s;
     fingerprint_applied := fingerprint_applied s;
     current_fingerprint := current_fingerprint s;
     google_fixes_applied := Some v;
     google_js_applied := google_js_applied s; random := random s |}.

Definition set_google_js_applied (v : bool) (s : PrivacyBrowser) :=
  {| history := history s; current_index := current_index s;
     current_url := current_url s; address_bar := address_bar s;
     status_bar := status_bar s; back_btn := back_btn s;
     forward_btn := forward_btn s; web_view := web_view s;
     fingerprint_protector := fingerprint_protector s;
     fingerprint_applied := fingerprint_applied s;
     current_fingerprint := current_fingerprint s;
     google_fixes_applied := google_fixes_applied s;
     google_js_applied := Some v; random := random s |}.

Definition set_random (v : Rng) (s : PrivacyBrowser) :=
  {| history := history s; current_index := current_index s;
     current_url := current_url s; address_bar := address_bar s;
     status_bar := status_bar s; back_btn := back_btn s;
     forward_btn := forward_btn s; web_view := web_view s;
     fingerprint_protector := fingerprint_protector s;
     fingerprint_applied := fingerprint_applied s;
     current_fingerprint := current_fingerprint s;
     google_fixes_applied := google_fixes_applied s;
     google_js_applied := google_js_applied s; random := v |}.

(** [hasattr(self, name)] for an attribute that may be missing. *)
Definition hasattr {A : Type} (attr : option A) : bool :=
  match attr with Some _ => true | None => false end.

(** What the user and the engine do to a window: typing in the address
    bar, the Go button, the two arrows (or a swipe), the refresh button,
    and the two signals of the engine.  The zoom shortcuts, which touch
    the zoom factor and the status bar only, are left out. *)
Inductive Event : Type :=
| Type_ (text : string)
| Go
| Back
| Forward
| Refresh
| UrlChanged (url : string)
| LoadFinished (success : bool).

Definition when {S : Type} (b : bool) (c : Py S unit) : Py S unit :=
  if b then c else ret tt.

(** *** browser.py *)

Module Browser.

Definition update_navigation_buttons : Py PrivacyBrowser unit :=
  (idx <- gets current_index ;;
   (if 0 <? idx then modify (set_back_btn true)
    else modify (set_back_btn false)) ;;
   h <- gets history ;;
   if idx <? PySeq.len h - 1 then modify (set_forward_btn true)
   else modify (set_forward_btn false))%py.

Definition add_to_history (url : string) : Py PrivacyBrowser unit :=
  (idx <- gets current_index ;;
   h <- gets history ;;
   when (idx <? PySeq.len h - 1)
        (modify (set_history (PySeq.slice_to h (idx + 1)))) ;;
   h <- gets history ;;
   modify (set_history (h ++ [url])) ;;
   h <- gets history ;;
   modify (set_current_index (PySeq.len h - 1)) ;;
   update_navigation_buttons)%py.

(** The URL [load_url] makes of the text of the address bar. *)
Definition normalize (text : string) : string :=
  let url := PyStr.strip text in
  if negb (PyStr.startswith_any ["http://"; "https://"] url)
  then "https://" +:+ url
  else url.

Definition load_url : Py PrivacyBrowser unit :=
  (text <- gets address_bar ;;
   let url := normalize text in
   modify (engine (SetUrl url)) ;;
   add_to_history url)%py.

Definition on_url_changed (url : string) : Py PrivacyBrowser unit :=
  (modify (setText url) ;;
   modify (set_current_url url) ;;
   modify (showMessage ("Loaded: " +:+ url)))%py.

Definition on_load_finished (success : bool) : Py PrivacyBrowser unit :=
  (if success then
     modify (showMessage "Page loaded successfully") ;;
     modify (engine Repaint) ;;
     modify (engine Show) ;;
     modify (engine Raise_) ;;
     modify (engine ActivateWindow)
   else
     modify (showMessage "Failed to load page") ;;
     modify (engine Reload))%py.

Definition go_back : Py PrivacyBrowser unit :=
  (idx <- gets current_index ;;
   when (0 <? idx)
     (modify (set_current_index (idx - 1)) ;;
      h <- gets history ;;
      idx <- gets current_index ;;
      url <- getitem h idx ;;
      modify (engine (SetUrl url)) ;;
      update_navigation_buttons))%py.

Definition go_forward : Py PrivacyBrowser unit :=
  (idx <- gets current_index ;;
   h <- gets history ;;
   when (idx <? PySeq.len h - 1)
     (modify (set_current_index (idx + 1)) ;;
      h <- gets history ;;
      idx <- gets current_index ;;
      url <- getitem h idx ;;
      modify (engine (SetUrl url)) ;;
      update_navigation_buttons))%py.

Definition refresh_page : Py PrivacyBrowser unit :=
  (url <- gets current_url ;;
   when (negb (String.eqb url EmptyString)) (modify (engine Reload)))%py.

(** The window after [__init__]: empty history, the start page requested
    from the engine but not recorded.  The privacy components are not
    created in this file; the record carries the defaults. *)
Definition __init__ (r : Rng) : PrivacyBrowser :=
  {| history := []; current_index := -1; current_url := EmptyString;
     address_bar := "https://www.bing.com";
     status_bar := "Ready - Clean browser";
     back_btn := false; forward_btn := false;
     web_view :=
       [ Show; SetUrl "https://www.bing.com";
         SetHttpUserAgent
           "Mozilla/5.0 (Macintosh; Intel Mac OS X 10_15_7) AppleWebKit/537.36 (KHTML, like Gecko) Chrome/120.0.0.0 Safari/537.36" ];
     fingerprint_protector := FingerPrintProtector.__init__;
     fingerprint_applied := None; current_fingerprint := None;
     google_fixes_applied := None; google_js_applied := None;
     random := r |}.

(** The slot an event runs. *)
Definition handle (e : Event) : Py PrivacyBrowser unit :=
  match e with
  | Type_ text => modify (setText text)
  | Go => load_url
  | Back => go_back
  | Forward => go_forward
  | Refresh => refresh_page
  | UrlChanged url => on_url_changed url
  | LoadFinished success => on_load_finished success
  end.

(** A window after a sequence of events, each slot run to its end or to
    the exception that stops it. *)
Fixpoint run (evs : list Event) (s : PrivacyBrowser) : PrivacyBrowser :=
  match evs with
  | [] => s
  | e :: evs' => run evs' (exec (handle e) s)
  end.

End Browser.

(** *** browser_broken.py *)

Module BrowserBroken.

(** These five methods have the same text in both files. *)
Definition update_navigation_buttons := Browser.update_navigation_buttons.
Definition go_back := Browser.go_back.
Definition go_forward := Browser.go_forward.
Definition refresh_page := Browser.refresh_page.
Definition on_url_changed := Browser.on_url_changed.

(** Here the history is cut at the current position without a test. *)
Definition add_to_history (url : string) : Py PrivacyBrowser unit :=
  (idx <- gets current_index ;;
   h <- gets history ;;
   modify (set_history (PySeq.slice_to h (idx + 1))) ;;
   h <- gets history ;;
   modify (set_history (h ++ [url])) ;;
   h <- gets history ;;
   modify (set_current_index (PySeq.len h - 1)) ;;
   update_navigation_buttons)%py.

Definition load_url : Py PrivacyBrowser unit :=
  (text <- gets address_bar ;;
   let url := Browser.normalize text in
   modify (showMessage ("Loading " +:+ url +:+ "...")) ;;
   modify (engine (SetUrl url)) ;;
   add_to_history url)%py.

Definition google_compatible_ua : string :=
  "Mozilla/5.0 (Macintosh; Intel Mac OS X 10_15_7) AppleWebKit/537.36 (KHTML, like Gecko) Chrome/131.0.0.0 Safari/537.36".

Definition apply_fingerprint_protection : Py PrivacyBrowser unit :=
  (applied <- gets fingerprint_applied ;;
   if hasattr applied then ret tt
   else
     protector <- gets fingerprint_protector ;;
     fingerprint <- zoom random set_random
       (FingerPrintProtector.generate_random_fingerprint protector) ;;
     modify (engine (SetHttpUserAgent google_compatible_ua)) ;;
     modify (set_fingerprint_applied true) ;;
     modify (set_current_fingerprint fingerprint))%py.

(** The method returns right after setting its flag. *)
Definition apply_google_compatibility_fixes : Py PrivacyBrowser unit :=
  (applied <- gets google_js_applied ;;
   if hasattr applied then ret tt
   else modify (set_google_js_applied true))%py.

Definition on_load_finished (success : bool) : Py PrivacyBrowser unit :=
  (if success then
     modify (showMessage
       "Page loaded successfully - Privacy protection active") ;;
     modify (engine Repaint) ;;
     modify (engine Show) ;;
     modify (engine Raise_) ;;
     applied <- gets fingerprint_applied ;;
     when (negb (hasattr applied)) apply_fingerprint_protection ;;
     url <- gets current_url ;;
     fixes <- gets google_fixes_applied ;;
     when (PyStr.contains "google.com" (PyStr.lower url)
           && negb (hasattr fixes))
       (apply_google_compatibility_fixes ;;
        modify (set_google_fixes_applied true))
   else
     modify (showMessage "Failed to load page") ;;
     modify (engine Reload))%py.

(** The window after [__init__]: [setup_ui] requests the start page and
    applies the fingerprint protection for the first time. *)
Definition __init__ (r : Rng) : PrivacyBrowser :=
  showMessage "Ready - Enter a URL and press Go or Enter"
    (engine Show
      (exec apply_fingerprint_protection
        {| history := []; current_index := -1; current_url := EmptyString;
           address_bar := "https://duckduckgo.com";
           status_bar := EmptyString;
           back_btn := false; forward_btn := false;
           web_view := [ SetUrl "https://duckduckgo.com" ];
           fingerprint_protector := FingerPrintProtector.__init__;
           fingerprint_applied := None; current_fingerprint := None;
           google_fixes_applied := None; google_js_applied := None;
           random := r |})).

(** One more event than the slots: a direct call of
    [apply_fingerprint_protection]. *)
Inductive Call : Type :=
| Slot (e : Event)
| ApplyFingerprintProtection.

Definition handle (c : Call) : Py PrivacyBrowser unit :=
  match c with
  | Slot (Type_ text) => modify (setText text)
  | Slot Go => load_url
  | Slot Back => go_back
  | Slot Forward => go_forward
  | Slot Refresh => refresh_page
  | Slot (UrlChanged url) => on_url_changed url
  | Slot (LoadFinished success) => on_load_finished success
  | ApplyFingerprintProtection => apply_fingerprint_protection
  end.

Fixpoint run (cs : list Call) (s : PrivacyBrowser) : PrivacyBrowser :=
  match cs with
  | [] => s
  | c :: cs' => run cs' (exec (handle c) s)
  end.

End BrowserBroken.

(** ** Swipes *)

(** [SwipeWebView.wheelEvent] of a view whose [parent_browser] is the
    window, as [setup_ui] builds it.  [delta_x] and [delta_y] are the two
    components of [event.angleDelta()].  The result tells what became of
    the event: handed to [super().wheelEvent] for scrolling, or taken as a
    swipe, with [event.setAccepted(True)] called or not. *)
Module SwipeWebView.

Inductive Handled : Type :=
| Scrolled
| Swiped (accepted : bool).

Definition swipe_threshold : Z := 100.

(** browser.py *)
Definition wheelEvent (delta_x delta_y : Z) : Py PrivacyBrowser Handled :=
  (if (Z.abs delta_y <? Z.abs delta_x) && (swipe_threshold <? Z.abs delta_x)
   then
     (if 0 <? delta_x then Browser.go_back else Browser.go_forward) ;;
     ret (Swiped false)
   else ret Scrolled)%py.

(** browser_broken.py: a swipe moves only when the arrow of its side is
    enabled, and the event is accepted. *)
Definition wheelEvent_broken (delta_x delta_y : Z)
  : Py PrivacyBrowser Handled :=
  (if negb (delta_x =? 0)
      && (Z.abs delta_y <? Z.abs delta_x)
      && (swipe_threshold <? Z.abs delta_x)
   then
     (if 0 <? delta_x then
        enabled <- gets back_btn ;;
        when enabled BrowserBroken.go_back
      else
        enabled <- gets forward_btn ;;
        when enabled BrowserBroken.go_forward) ;;
     ret (Swiped true)
   else ret Scrolled)%py.

End SwipeWebView.


(** ** The tracker and ad policy as the specification words it

    The source has no function of this name: the verdict the
    specification describes is written down here to be compared with what
    the interceptor does. *)

Module Spec.

Inductive Verdict : Type := Allowed | Tracker | Ad.

Record PrivacyPolicyConfig : Type := {
  tracker_domains : gset string;
  ad_domains : gset string;
  allow_domains : gset string
}.

(** The text after the scheme separator, when there is one. *)
Definition after_scheme (url : string) : string :=
  match String.index 0 "://" url with
  | Some n => String.substring (n + 3)%nat (String.length url) url
  | None => url
  end.

Definition ends_host (c : ascii) : bool :=
  existsb (Ascii.eqb c) ["/"; "?"; "#"; ":"]%char.

Fixpoint take_host (s : string) : string :=
  match s with
  | EmptyString => EmptyString
  | String c s' => if ends_host c then EmptyString else String c (take_host s')
  end.

(** The domain of a URL: its host. *)
Definition domain_of (url : string) : string := take_host (after_scheme url).

Definition endswith (suffix s : string) : bool :=
  let n := String.length s in
  let m := String.length suffix in
  Nat.leb m n && String.eqb (String.substring (n - m)%nat m s) suffix.

(** An entry matches a domain when it equals it or ends it after a dot. *)
Definition matches (domain entry : string) : bool :=
  String.eqb entry domain || endswith ("." +:+ entry) domain.

Definition matches_any (domain : string) (entries : gset string) : bool :=
  existsb (matches domain) (elements entries).

(** First match wins: allow list, ad list, tracker list, default. *)
Definition classify (policy : PrivacyPolicyConfig) (url : string) : Verdict :=
  let domain := domain_of url in
  if matches_any domain (allow_domains policy) then Allowed
  else if matches_any domain (ad_domains policy) then Ad
  else if matches_any domain (tracker_domains policy) then Tracker
  else Allowed.

(** The three domain lists the source holds. *)
Definition source_policy : PrivacyPolicyConfig :=
  {| tracker_domains :=
       EnhancedPrivacyProtector.trackers EnhancedPrivacyProtector.__init__;
     ad_domains :=
       EnhancedPrivacyProtector.ad_domains EnhancedPrivacyProtector.__init__;
     allow_domains :=
       list_to_set PrivacyRequestInterceptor.google_essential_domains |}.

End Spec.

(** * Properties *)

(** ** Strings *)

Lemma startswith_app (p s : string) : PyStr.startswith p (p +:+ s) = true.
Proof.
  induction p as [|a p IH]; simpl; [reflexivity|].
  now rewrite Ascii.eqb_refl.
Qed.

Lemma startswith_inv (p s : string) :
  PyStr.startswith p s = true -> exists post, s = p +:+ post.
Proof.
  revert s. induction p as [|a p IH]; intros s H; simpl in *.
  - now exists s.
  - destruct s as [|b s]; [discriminate|].
    destruct (Ascii.eqb a b) eqn:E; [|discriminate].
    apply Ascii.eqb_eq in E. subst b.
    destruct (IH _ H) as [post ->]. now exists post.
Qed.

Lemma startswith_iff (p s : string) :
  PyStr.startswith p s = true <-> exists post, s = p +:+ post.
Proof.
  split; [apply startswith_inv|]. intros [post ->]. apply startswith_app.
Qed.

Lemma contains_startswith (sub s : string) :
  PyStr.startswith sub s = true -> PyStr.contains sub s = true.
Proof. intros H. destruct s; simpl in *; rewrite H; reflexivity. Qed.

(** [contains] decides the occurrence of a string inside another one. *)
Lemma contains_iff (sub s : string) :
  PyStr.contains sub s = true <-> exists pre post, s = pre +:+ sub +:+ post.
Proof.
  split.
  - induction s as [|c s IH]; simpl; intros H.
    + rewrite orb_false_r in H. apply startswith_inv in H as [post ->].
      now exists EmptyString, post.
    + apply orb_true_iff in H as [H|H].
      * apply startswith_inv in H as [post ->]. now exists EmptyString, post.
      * destruct (IH H) as (pre & post & ->). now exists (String c pre), post.
  - intros (pre & post & ->). induction pre as [|c pre IH].
    + apply contains_startswith.
      change (PyStr.startswith sub (sub +:+ post) = true).
      apply startswith_app.
    + change (PyStr.contains sub (String c (pre +:+ sub +:+ post)) = true).
      cbn [PyStr.contains]. rewrite IH. apply orb_true_r.
Qed.

Example strip_ex : PyStr.strip "  example.com	 " = "example.com".
Proof. reflexivity. Qed.

Example lower_ex : PyStr.lower "WWW.Google.COM/x" = "www.google.com/x".
Proof. reflexivity. Qed.

(** ** Navigation history *)

(** A constant random source, for concrete sessions. *)
Definition rng0 : Rng := {| draws := fun _ => 0%nat; cursor := 0 |}.

(** The history invariant of the data model. *)
Definition history_ok (s : PrivacyBrowser) : Prop :=
  -1 <= current_index s < PySeq.len (history s).

(** What a navigation to [url] from [s] leaves in [s']: the entries up to
    the current one, then [url], with the index on it. *)
Definition navigated (url : string) (s s' : PrivacyBrowser) : Prop :=
  history s' = take (Z.to_nat (current_index s + 1)) (history s) ++ [url]
  /\ current_index s' = PySeq.len (history s') - 1
  /\ current_index s' = current_index s + 1.

Ltac py_run :=
  unfold exec, returns, when, bind, gets, modify, ret; cbn.

Lemma slice_to_nonneg {A : Type} (l : list A) (k : Z) :
  0 <= k -> PySeq.slice_to l k = take (Z.to_nat k) l.
Proof.
  intros Hk. unfold PySeq.slice_to.
  destruct (k <? 0) eqn:E; [apply Z.ltb_lt in E; lia | reflexivity].
Qed.

Lemma len_take_app {A : Type} (l : list A) (i : Z) (x : A) :
  -1 <= i < PySeq.len l ->
  PySeq.len (take (Z.to_nat (i + 1)) l ++ [x]) - 1 = i + 1.
Proof.
  unfold PySeq.len. intros H.
  rewrite length_app, length_take. simpl. lia.
Qed.

Lemma update_navigation_buttons_history (s : PrivacyBrowser) :
  let s' := exec Browser.update_navigation_buttons s in
  history s' = history s /\ current_index s' = current_index s
  /\ fst (Browser.update_navigation_buttons s) = Ok tt.
Proof.
  unfold Browser.update_navigation_buttons. py_run.
  destruct (0 <? current_index s); cbn;
    destruct (current_index s <? _); cbn; auto.
Qed.

(** [add_to_history] of browser.py as one assignment of the history, one
    of the index, and the refresh of the buttons. *)
Lemma add_to_history_unfold (url : string) (s : PrivacyBrowser) :
  let h := history s in
  let i := current_index s in
  let h' := (if i <? PySeq.len h - 1 then PySeq.slice_to h (i + 1) else h)
            ++ [url] in
  Browser.add_to_history url s =
  Browser.update_navigation_buttons
    (set_current_index (PySeq.len h' - 1) (set_history h' s)).
Proof.
  unfold Browser.add_to_history. py_run.
  destruct (current_index s <? PySeq.len (history s) - 1); cbn;
    destruct s; reflexivity.
Qed.

(** The same for browser_broken.py, where the cut has no test. *)
Lemma add_to_history_broken_unfold (url : string) (s : PrivacyBrowser) :
  let h' := PySeq.slice_to (history s) (current_index s + 1) ++ [url] in
  BrowserBroken.add_to_history url s =
  Browser.update_navigation_buttons
    (set_current_index (PySeq.len h' - 1) (set_history h' s)).
Proof.
  unfold BrowserBroken.add_to_history. py_run. destruct s; reflexivity.
Qed.

Lemma add_to_history_navigated (url : string) (s : PrivacyBrowser) :
  history_ok s ->
  returns (Browser.add_to_history url) s
  /\ navigated url s (exec (Browser.add_to_history url) s).
Proof.
  intros Hok. pose proof (add_to_history_unfold url s) as E. cbv zeta in E.
  unfold returns, exec. rewrite E.
  match goal with |- context [Browser.update_navigation_buttons ?t] =>
    destruct (update_navigation_buttons_history t) as (Hh & Hi & Hr) end.
  unfold exec in Hh, Hi. split; [eexists; exact Hr|].
  unfold navigated. rewrite Hh, Hi. cbn.
  unfold history_ok in Hok.
  destruct (current_index s <? PySeq.len (history s) - 1) eqn:C.
  - rewrite slice_to_nonneg by lia.
    rewrite len_take_app by lia. auto.
  - apply Z.ltb_ge in C.
    assert (current_index s = PySeq.len (history s) - 1) as Hi' by lia.
    assert (take (Z.to_nat (current_index s + 1)) (history s) = history s)
      as ->.
    { apply take_ge. unfold PySeq.len in Hi'. lia. }
    unfold PySeq.len in *. rewrite length_app. simpl. split; [auto|lia].
Qed.

Lemma add_to_history_broken_navigated (url : string) (s : PrivacyBrowser) :
  history_ok s ->
  returns (BrowserBroken.add_to_history url) s
  /\ navigated url s (exec (BrowserBroken.add_to_history url) s).
Proof.
  intros Hok. pose proof (add_to_history_broken_unfold url s) as E.
  cbv zeta in E. unfold returns, exec. rewrite E.
  match goal with |- context [Browser.update_navigation_buttons ?t] =>
    destruct (update_navigation_buttons_history t) as (Hh & Hi & Hr) end.
  unfold exec in Hh, Hi. split; [eexists; exact Hr|].
  unfold navigated. rewrite Hh, Hi. cbn.
  unfold history_ok in Hok.
  rewrite slice_to_nonneg by lia. rewrite len_take_app by lia. auto.
Qed.

(** C2. In a history with [-1 <= index < length], a navigation made while
    [index < length - 1] drops every entry after the current one, appends
    the new URL and moves the index to the last position, and it returns
    without raising; this holds for [add_to_history] of browser.py and of
    browser_broken.py. *)
Theorem add_to_history_truncates (s : PrivacyBrowser) (url : string) :
  -1 <= current_index s < PySeq.len (history s) ->
  current_index s < PySeq.len (history s) - 1 ->
  let kept := take (Z.to_nat (current_index s + 1)) (history s) in
  (returns (Browser.add_to_history url) s
   /\ history (exec (Browser.add_to_history url) s) = kept ++ [url]
   /\ current_index (exec (Browser.add_to_history url) s)
      = PySeq.len (kept ++ [url]) - 1)
  /\ (returns (BrowserBroken.add_to_history url) s
      /\ history (exec (BrowserBroken.add_to_history url) s) = kept ++ [url]
      /\ current_index (exec (BrowserBroken.add_to_history url) s)
         = PySeq.len (kept ++ [url]) - 1).
Proof.
  intros Hok _. cbv zeta.
  destruct (add_to_history_navigated url s Hok) as (R1 & H1 & I1 & _).
  destruct (add_to_history_broken_navigated url s Hok) as (R2 & H2 & I2 & _).
  rewrite H1 in I1. rewrite H2 in I2. auto.
Qed.

(** The history [a, b, c] with the index back on its first entry. *)
Definition abc_at_0 : PrivacyBrowser :=
  set_current_index 0
    (set_history ["http://a"; "http://b"; "http://c"] (Browser.__init__ rng0)).

Lemma add_to_history_truncates_witness :
  (history (exec (Browser.add_to_history "http://d") abc_at_0)
     = ["http://a"; "http://d"]
   /\ current_index (exec (Browser.add_to_history "http://d") abc_at_0) = 1)
  /\ (history (exec (BrowserBroken.add_to_history "http://d") abc_at_0)
        = ["http://a"; "http://d"]
      /\ current_index (exec (BrowserBroken.add_to_history "http://d") abc_at_0)
         = 1).
Proof.
  destruct (add_to_history_truncates abc_at_0 "http://d")
    as ((_ & H1 & I1) & (_ & H2 & I2)).
  - unfold abc_at_0, PySeq.len. simpl. lia.
  - unfold abc_at_0, PySeq.len. simpl. lia.
  - repeat split; assumption.
Defined.

(** Three pages, two steps back, a fourth page: the session of the
    specification, from a fresh window of either file. *)
Example session_abc_back_back_d :
  let evs := [ Type_ "a"; Go; Type_ "b"; Go; Type_ "c"; Go; Back; Back;
               Type_ "d"; Go ] in
  let s := Browser.run evs (Browser.__init__ rng0) in
  let s' := BrowserBroken.run (map BrowserBroken.Slot evs)
              (BrowserBroken.__init__ rng0) in
  history s = ["https://a"; "https://d"] /\ current_index s = 1
  /\ back_btn s = true /\ forward_btn s = false
  /\ history s' = ["https://a"; "https://d"] /\ current_index s' = 1.
Proof. vm_compute. repeat split. Qed.

(** ** Address-bar input *)

(** [url.startswith(('http://', 'https://'))] *)
Definition has_scheme (url : string) : bool :=
  PyStr.startswith_any ["http://"; "https://"] url.

Lemma normalize_has_scheme (text : string) :
  has_scheme (Browser.normalize text) = true.
Proof.
  unfold Browser.normalize, has_scheme.
  destruct (PyStr.startswith_any _ (PyStr.strip text)) eqn:E; cbn [negb].
  - exact E.
  - unfold PyStr.startswith_any. cbn [existsb].
    rewrite (startswith_app "https://" (PyStr.strip text)).
    apply orb_true_r.
Qed.

Lemma slice_to_take {A : Type} (l : list A) (k : Z) :
  exists n, PySeq.slice_to l k = take n l.
Proof. unfold PySeq.slice_to. destruct (k <? 0); eauto. Qed.

Lemma load_url_unfold (s : PrivacyBrowser) :
  Browser.load_url s =
  Browser.add_to_history (Browser.normalize (address_bar s))
    (engine (SetUrl (Browser.normalize (address_bar s))) s).
Proof. reflexivity. Qed.

Lemma load_url_broken_unfold (s : PrivacyBrowser) :
  BrowserBroken.load_url s =
  let url := Browser.normalize (address_bar s) in
  BrowserBroken.add_to_history url
    (engine (SetUrl url) (showMessage ("Loading " +:+ url +:+ "...") s)).
Proof. reflexivity. Qed.

(** Whatever the state, [load_url] returns, and it leaves a prefix of the
    old history followed by the normalised text of the address bar. *)
Lemma load_url_records (s : PrivacyBrowser) :
  returns Browser.load_url s
  /\ exists n, history (exec Browser.load_url s)
               = take n (history s) ++ [Browser.normalize (address_bar s)].
Proof.
  unfold returns, exec. rewrite load_url_unfold, add_to_history_unfold.
  cbv zeta.
  match goal with |- context [Browser.update_navigation_buttons ?t] =>
    destruct (update_navigation_buttons_history t) as (Hh & _ & Hr) end.
  unfold exec in Hh. split; [eexists; exact Hr|]. rewrite Hh. cbn.
  destruct (current_index s <? PySeq.len (history s) - 1).
  - destruct (slice_to_take (history s) (current_index s + 1)) as [n ->].
    now exists n.
  - exists (length (history s)). now rewrite firstn_all.
Qed.

Lemma load_url_broken_records (s : PrivacyBrowser) :
  returns BrowserBroken.load_url s
  /\ exists n, history (exec BrowserBroken.load_url s)
               = take n (history s) ++ [Browser.normalize (address_bar s)].
Proof.
  unfold returns, exec.
  rewrite load_url_broken_unfold. cbv zeta.
  rewrite add_to_history_broken_unfold. cbv zeta.
  match goal with |- context [Browser.update_navigation_buttons ?t] =>
    destruct (update_navigation_buttons_history t) as (Hh & _ & Hr) end.
  unfold exec in Hh. split; [eexists; exact Hr|]. rewrite Hh. cbn.
  destruct (slice_to_take (history s) (current_index s + 1)) as [n ->].
  now exists n.
Qed.

(** *** Slots that leave the history alone *)

Ltac py_cases :=
  repeat (cbn;
    match goal with
    | |- context [if ?b then _ else _] => destruct b
    | |- context [match PySeq.index_of ?l ?i with _ => _ end] =>
        destruct (PySeq.index_of l i)
    | |- context [match ?l !! ?j with _ => _ end] => destruct (l !! j)
    end); cbn; auto.

Lemma go_back_history (s : PrivacyBrowser) :
  history (exec Browser.go_back s) = history s.
Proof.
  unfold Browser.go_back, Browser.update_navigation_buttons, getitem, raise.
  py_run. py_cases.
Qed.

Lemma go_forward_history (s : PrivacyBrowser) :
  history (exec Browser.go_forward s) = history s.
Proof.
  unfold Browser.go_forward, Browser.update_navigation_buttons, getitem, raise.
  py_run. py_cases.
Qed.

Lemma refresh_page_history (s : PrivacyBrowser) :
  history (exec Browser.refresh_page s) = history s.
Proof. unfold Browser.refresh_page. py_run. py_cases. Qed.

Lemma on_load_finished_history (success : bool) (s : PrivacyBrowser) :
  history (exec (Browser.on_load_finished success) s) = history s.
Proof. destruct success; reflexivity. Qed.

Definition all_have_scheme (h : list string) : Prop :=
  Forall (fun url => has_scheme url = true) h.

Lemma all_have_scheme_record (n : nat) (h : list string) (text : string) :
  all_have_scheme h ->
  all_have_scheme (take n h ++ [Browser.normalize text]).
Proof.
  intros H. apply Forall_app. split.
  - now apply Forall_take.
  - constructor; [apply normalize_has_scheme | constructor].
Qed.

Lemma handle_all_have_scheme (e : Event) (s : PrivacyBrowser) :
  all_have_scheme (history s) ->
  all_have_scheme (history (exec (Browser.handle e) s)).
Proof.
  intros H. destruct e; cbn [Browser.handle].
  - exact H.
  - destruct (load_url_records s) as (_ & n & ->).
    now apply all_have_scheme_record.
  - now rewrite go_back_history.
  - now rewrite go_forward_history.
  - now rewrite refresh_page_history.
  - exact H.
  - now rewrite on_load_finished_history.
Qed.

Lemma run_all_have_scheme (evs : list Event) (s : PrivacyBrowser) :
  all_have_scheme (history s) ->
  all_have_scheme (history (Browser.run evs s)).
Proof.
  revert s. induction evs as [|e evs IH]; intros s H; cbn [Browser.run].
  - exact H.
  - apply IH. now apply handle_all_have_scheme.
Qed.

(** ** One fingerprint for a session *)

(** What [apply_fingerprint_protection] does: nothing once the flag
    exists; otherwise it draws a fingerprint, sets the user agent of the
    engine, sets the flag and stores the fingerprint. *)
Lemma apply_fingerprint_protection_unfold (s : PrivacyBrowser) :
  BrowserBroken.apply_fingerprint_protection s =
  if hasattr (fingerprint_applied s) then (Ok tt, s)
  else
    match FingerPrintProtector.generate_random_fingerprint
            (fingerprint_protector s) (random s) with
    | (Ok fingerprint, r') =>
        (Ok tt,
         set_current_fingerprint fingerprint
           (set_fingerprint_applied true
              (engine (SetHttpUserAgent BrowserBroken.google_compatible_ua)
                 (set_random r' s))))
    | (Raised e, r') => (Raised e, set_random r' s)
    end.
Proof.
  unfold BrowserBroken.apply_fingerprint_protection, bind, gets, modify,
    ret, zoom.
  destruct (hasattr (fingerprint_applied s)); [reflexivity|].
  destruct (FingerPrintProtector.generate_random_fingerprint _ _)
    as [[fingerprint|e] r']; reflexivity.
Qed.

(** A second call changes nothing at all. *)
Lemma apply_fingerprint_protection_applied (s : PrivacyBrowser) :
  hasattr (fingerprint_applied s) = true ->
  BrowserBroken.apply_fingerprint_protection s = (Ok tt, s).
Proof.
  intros H. rewrite apply_fingerprint_protection_unfold. now rewrite H.
Qed.

(** The session part of a window: the flag and the stored fingerprint. *)
Definition session_of (s : PrivacyBrowser) : option bool * option Fingerprint.t :=
  (fingerprint_applied s, current_fingerprint s).

Lemma apply_fingerprint_protection_nav (s : PrivacyBrowser) :
  let s' := exec BrowserBroken.apply_fingerprint_protection s in
  history s' = history s /\ current_index s' = current_index s
  /\ current_url s' = current_url s
  /\ google_fixes_applied s' = google_fixes_applied s
  /\ google_js_applied s' = google_js_applied s
  /\ status_bar s' = status_bar s.
Proof.
  cbv zeta. unfold exec. rewrite apply_fingerprint_protection_unfold.
  destruct (hasattr (fingerprint_applied s)); [cbn; auto 10|].
  destruct (FingerPrintProtector.generate_random_fingerprint _ _)
    as [[fingerprint|e] r']; cbn; auto 10.
Qed.

Lemma on_load_finished_broken_unfold (s : PrivacyBrowser) :
  hasattr (fingerprint_applied s) = true ->
  exec (BrowserBroken.on_load_finished true) s =
  let s1 := engine Raise_ (engine Show (engine Repaint
              (showMessage
                 "Page loaded successfully - Privacy protection active" s))) in
  if PyStr.contains "google.com" (PyStr.lower (current_url s))
     && negb (hasattr (google_fixes_applied s))
  then set_google_fixes_applied true
         (if hasattr (google_js_applied s) then s1
          else set_google_js_applied true s1)
  else s1.
Proof.
  intros H. unfold BrowserBroken.on_load_finished, exec, bind, gets, modify,
    when, ret. cbn.
  rewrite H. cbn.
  destruct (PyStr.contains _ _ && _); cbn; [|reflexivity].
  unfold BrowserBroken.apply_google_compatibility_fixes, bind, gets, modify,
    ret. cbn.
  destruct (hasattr (google_js_applied s)); reflexivity.
Qed.

(** *** Drawing from a pool *)

Definition advance (r : Rng) : Rng :=
  {| draws := draws r; cursor := S (cursor r) |}.

(** The element [choice] picks from a pool that is not empty. *)
Definition pick {A : Type} (x : A) (l : list A) (r : Rng) : A :=
  nth (Nat.modulo (draws r (cursor r)) (S (length l))) (x :: l) x.

Lemma choice_cons {A : Type} (x : A) (l : list A) (r : Rng) :
  choice (x :: l) r = (Ok (pick x l r), advance r).
Proof.
  unfold choice, bind, randbelow, pick.
  set (i := Nat.modulo _ _).
  assert (i < length (x :: l))%nat as Hi.
  { apply Nat.mod_upper_bound. discriminate. }
  destruct (lookup_lt_is_Some_2 (x :: l) i Hi) as [y Hy].
  rewrite Hy. unfold ret. f_equal. f_equal.
  symmetry. apply nth_lookup_Some with (d := x) in Hy. exact Hy.
Qed.

Lemma pick_elem {A : Type} (x : A) (l : list A) (r : Rng) :
  pick x l r ∈ x :: l.
Proof.
  unfold pick. apply list_elem_of_In, nth_In.
  apply Nat.mod_upper_bound. discriminate.
Qed.

(** A protector whose five pools are not empty, as [__init__] makes it. *)
Definition pools_nonempty (p : FingerPrintProtector.t) : Prop :=
  FingerPrintProtector.user_agents p <> []
  /\ FingerPrintProtector.screen_resolution p <> []
  /\ FingerPrintProtector.timezone p <> []
  /\ FingerPrintProtector.language p <> []
  /\ FingerPrintProtector.plugins p <> [].

Lemma init_pools_nonempty : pools_nonempty FingerPrintProtector.__init__.
Proof. repeat split; discriminate. Qed.

(** With such pools the generator returns a fingerprint: its user agent
    and language are the elements the first and fourth draws pick, and
    fifteen draws are consumed. *)
Lemma generate_random_fingerprint_ok (p : FingerPrintProtector.t) (r : Rng) :
  pools_nonempty p ->
  exists fingerprint,
    FingerPrintProtector.generate_random_fingerprint p r
    = (Ok fingerprint, Nat.iter 15 advance r)
    /\ Fingerprint.user_agent fingerprint ∈ FingerPrintProtector.user_agents p
    /\ Fingerprint.language fingerprint ∈ FingerPrintProtector.language p.
Proof.
  intros (Hua & Hsr & Htz & Hla & Hpl).
  unfold FingerPrintProtector.generate_random_fingerprint.
  destruct (FingerPrintProtector.user_agents p) as [|ua uas]; [easy|].
  destruct (FingerPrintProtector.screen_resolution p) as [|sr srs]; [easy|].
  destruct (FingerPrintProtector.timezone p) as [|tz tzs]; [easy|].
  destruct (FingerPrintProtector.language p) as [|la las]; [easy|].
  destruct (FingerPrintProtector.plugins p) as [|pl pls]; [easy|].
  unfold bind. repeat rewrite choice_cons.
  eexists. split; [reflexivity|]. cbn [Fingerprint.user_agent Fingerprint.language].
  split; apply pick_elem.
Qed.

(** *** Slots that leave the session alone *)

Lemma load_url_broken_session (s : PrivacyBrowser) :
  session_of (exec BrowserBroken.load_url s) = session_of s.
Proof.
  unfold BrowserBroken.load_url, BrowserBroken.add_to_history,
    BrowserBroken.update_navigation_buttons,
    Browser.update_navigation_buttons, session_of.
  py_run. py_cases.
Qed.

Lemma go_back_session (s : PrivacyBrowser) :
  session_of (exec Browser.go_back s) = session_of s.
Proof.
  unfold Browser.go_back, Browser.update_navigation_buttons, getitem, raise,
    session_of.
  py_run. py_cases.
Qed.

Lemma go_forward_session (s : PrivacyBrowser) :
  session_of (exec Browser.go_forward s) = session_of s.
Proof.
  unfold Browser.go_forward, Browser.update_navigation_buttons, getitem,
    raise, session_of.
  py_run. py_cases.
Qed.

Lemma refresh_page_session (s : PrivacyBrowser) :
  session_of (exec Browser.refresh_page s) = session_of s.
Proof. unfold Browser.refresh_page, session_of. py_run. py_cases. Qed.

Lemma on_load_finished_broken_session (success : bool) (s : PrivacyBrowser) :
  hasattr (fingerprint_applied s) = true ->
  session_of (exec (BrowserBroken.on_load_finished success) s) = session_of s.
Proof.
  intros H. destruct success; [|reflexivity].
  rewrite (on_load_finished_broken_unfold s H). cbv zeta.
  destruct (PyStr.contains _ _ && _); [|reflexivity].
  destruct (hasattr (google_js_applied s)); reflexivity.
Qed.

Lemma handle_broken_session (c : BrowserBroken.Call) (s : PrivacyBrowser) :
  hasattr (fingerprint_applied s) = true ->
  session_of (exec (BrowserBroken.handle c) s) = session_of s.
Proof.
  intros H. destruct c as [e|]; [destruct e|]; cbn [BrowserBroken.handle].
  - reflexivity.
  - apply load_url_broken_session.
  - apply go_back_session.
  - apply go_forward_session.
  - apply refresh_page_session.
  - reflexivity.
  - now apply on_load_finished_broken_session.
  - unfold exec. now rewrite apply_fingerprint_protection_applied.
Qed.

Lemma run_broken_session (cs : list BrowserBroken.Call) (s : PrivacyBrowser) :
  hasattr (fingerprint_applied s) = true ->
  session_of (BrowserBroken.run cs s) = session_of s.
Proof.
  revert s. induction cs as [|c cs IH]; intros s H; cbn [BrowserBroken.run].
  - reflexivity.
  - pose proof (handle_broken_session c s H) as E.
    rewrite IH; [exact E|].
    unfold session_of in E. injection E as E1 _. now rewrite E1.
Qed.

(** The first call, made by [__init__], stores a fingerprint drawn from
    the random source and sets the flag. *)
Lemma init_broken_session (r : Rng) :
  exists fingerprint,
    FingerPrintProtector.generate_random_fingerprint
      FingerPrintProtector.__init__ r
    = (Ok fingerprint, Nat.iter 15 advance r)
    /\ session_of (BrowserBroken.__init__ r) = (Some true, Some fingerprint).
Proof.
  destruct (generate_random_fingerprint_ok FingerPrintProtector.__init__ r
              init_pools_nonempty) as (fingerprint & E & _).
  exists fingerprint. split; [exact E|].
  unfold BrowserBroken.__init__, exec.
  rewrite apply_fingerprint_protection_unfold.
  cbn [hasattr fingerprint_applied fingerprint_protector random].
  rewrite E. reflexivity.
Qed.

(** C1. Once a call of [apply_fingerprint_protection] has set the flag, a
    later call changes nothing in the window, and after any sequence of
    slots and further calls the flag and the stored fingerprint are the
    ones of the first call: within a window the profile is never drawn
    again. *)
Theorem apply_fingerprint_protection_once
    (s : PrivacyBrowser) (cs : list BrowserBroken.Call) :
  hasattr (fingerprint_applied s) = true ->
  BrowserBroken.apply_fingerprint_protection s = (Ok tt, s)
  /\ exec BrowserBroken.apply_fingerprint_protection
       (exec BrowserBroken.apply_fingerprint_protection s)
     = exec BrowserBroken.apply_fingerprint_protection s
  /\ fingerprint_applied (BrowserBroken.run cs s) = fingerprint_applied s
  /\ current_fingerprint (BrowserBroken.run cs s) = current_fingerprint s.
Proof.
  intros H.
  pose proof (apply_fingerprint_protection_applied s H) as E.
  pose proof (run_broken_session cs s H) as R.
  unfold session_of in R. injection R as R1 R2.
  unfold exec. rewrite E. cbn [snd]. rewrite E. auto.
Qed.

Lemma apply_fingerprint_protection_once_witness :
  let s := BrowserBroken.__init__ rng0 in
  let cs := [ BrowserBroken.Slot (LoadFinished true);
              BrowserBroken.ApplyFingerprintProtection;
              BrowserBroken.Slot (Type_ "google.com");
              BrowserBroken.Slot Go;
              BrowserBroken.Slot (UrlChanged "https://google.com");
              BrowserBroken.Slot (LoadFinished true);
              BrowserBroken.ApplyFingerprintProtection ] in
  fingerprint_applied s = Some true
  /\ fingerprint_applied (BrowserBroken.run cs s) = Some true
  /\ current_fingerprint (BrowserBroken.run cs s) = current_fingerprint s.
Proof.
  cbv zeta.
  destruct (apply_fingerprint_protection_once (BrowserBroken.__init__ rng0)
    [ BrowserBroken.Slot (LoadFinished true);
      BrowserBroken.ApplyFingerprintProtection;
      BrowserBroken.Slot (Type_ "google.com");
      BrowserBroken.Slot Go;
      BrowserBroken.Slot (UrlChanged "https://google.com");
      BrowserBroken.Slot (LoadFinished true);
      BrowserBroken.ApplyFingerprintProtection ])
    as (_ & _ & F & P).
  - reflexivity.
  - split; [reflexivity|]. split; [|exact P]. rewrite F. reflexivity.
Defined.

(** Two windows, two random sources, two profiles: a new session is the
    one way to another fingerprint. *)
Example new_session_new_profile :
  option_map Fingerprint.user_agent
    (current_fingerprint (BrowserBroken.__init__ rng0))
  = Some "Mozilla/5.0 (Macintosh; Intel Mac OS X 10_15_7) AppleWebKit/537.36"
  /\ option_map Fingerprint.user_agent
       (current_fingerprint
          (BrowserBroken.__init__ {| draws := fun _ => 1%nat; cursor := 0 |}))
     = Some "Mozilla/5.0 (Windows NT 10.0; Win64; x64) AppleWebKit/537.36".
Proof. vm_compute. split; reflexivity. Qed.

(** *** The history of browser_broken.py *)

Lemma on_load_finished_broken_history (success : bool) (s : PrivacyBrowser) :
  history (exec (BrowserBroken.on_load_finished success) s) = history s.
Proof.
  destruct success; [|reflexivity].
  destruct (hasattr (fingerprint_applied s)) eqn:H.
  - rewrite (on_load_finished_broken_unfold s H). cbv zeta.
    destruct (PyStr.contains _ _ && _); [|reflexivity].
    destruct (hasattr (google_js_applied s)); reflexivity.
  - unfold BrowserBroken.on_load_finished, exec, bind, gets, modify, when, ret.
    cbn [fingerprint_applied engine showMessage fst snd].
    rewrite H. cbn [negb].
    rewrite apply_fingerprint_protection_unfold.
    cbn [fingerprint_applied engine showMessage fingerprint_protector random].
    rewrite H.
    destruct (FingerPrintProtector.generate_random_fingerprint _ _)
      as [[fingerprint|e] r']; [|reflexivity].
    unfold BrowserBroken.apply_google_compatibility_fixes, bind, gets, modify,
      ret.
    py_cases.
Qed.

Lemma handle_broken_all_have_scheme (c : BrowserBroken.Call) (s : PrivacyBrowser) :
  all_have_scheme (history s) ->
  all_have_scheme (history (exec (BrowserBroken.handle c) s)).
Proof.
  intros H. destruct c as [e|]; [destruct e|]; cbn [BrowserBroken.handle].
  - exact H.
  - destruct (load_url_broken_records s) as (_ & n & ->).
    now apply all_have_scheme_record.
  - unfold BrowserBroken.go_back. now rewrite go_back_history.
  - unfold BrowserBroken.go_forward. now rewrite go_forward_history.
  - unfold BrowserBroken.refresh_page. now rewrite refresh_page_history.
  - exact H.
  - now rewrite on_load_finished_broken_history.
  - destruct (apply_fingerprint_protection_nav s) as (-> & _). exact H.
Qed.

Lemma run_broken_all_have_scheme (cs : list BrowserBroken.Call) (s : PrivacyBrowser) :
  all_have_scheme (history s) ->
  all_have_scheme (history (BrowserBroken.run cs s)).
Proof.
  revert s. induction cs as [|c cs IH]; intros s H; cbn [BrowserBroken.run].
  - exact H.
  - apply IH. now apply handle_broken_all_have_scheme.
Qed.

Lemma init_broken_history (r : Rng) : history (BrowserBroken.__init__ r) = [].
Proof.
  unfold BrowserBroken.__init__. cbn [history showMessage engine].
  match goal with |- context [exec _ ?t] =>
    destruct (apply_fingerprint_protection_nav t) as (-> & _) end.
  reflexivity.
Qed.

(** C9. [load_url] strips the text of the address bar and puts [https://]
    in front of it unless it starts with [http://] or [https://]; it asks
    the engine for that URL and records it as the last entry.  Hence every
    entry of the history of a window, after any sequence of events from
    [__init__], starts with one of the two schemes; the empty text is
    recorded as [https://]. *)
Theorem load_url_scheme :
  (forall text,
     Browser.normalize text
     = (if has_scheme (PyStr.strip text) then PyStr.strip text
        else "https://" +:+ PyStr.strip text)
     /\ has_scheme (Browser.normalize text) = true)
  /\ (forall s,
        let url := Browser.normalize (address_bar s) in
        (returns Browser.load_url s
         /\ last (history (exec Browser.load_url s)) = Some url
         /\ head (web_view (exec Browser.load_url s)) = Some (SetUrl url))
        /\ (returns BrowserBroken.load_url s
            /\ last (history (exec BrowserBroken.load_url s)) = Some url
            /\ head (web_view (exec BrowserBroken.load_url s))
               = Some (SetUrl url)))
  /\ (forall r evs,
        all_have_scheme (history (Browser.run evs (Browser.__init__ r))))
  /\ (forall r cs,
        all_have_scheme
          (history (BrowserBroken.run cs (BrowserBroken.__init__ r))))
  /\ (forall r,
        history (Browser.run [Type_ EmptyString; Go] (Browser.__init__ r))
        = ["https://"]
        /\ history (BrowserBroken.run
                      [BrowserBroken.Slot (Type_ EmptyString);
                       BrowserBroken.Slot Go] (BrowserBroken.__init__ r))
           = ["https://"]).
Proof.
  split; [|split; [|split; [|split]]].
  - intros text. split; [|apply normalize_has_scheme].
    unfold Browser.normalize, has_scheme.
    now destruct (PyStr.startswith_any _ _).
  - intros s. cbv zeta. split.
    + destruct (load_url_records s) as (R & n & E). split; [exact R|].
      split; [rewrite E; apply last_snoc|].
      unfold Browser.load_url, Browser.add_to_history,
        Browser.update_navigation_buttons. py_run. py_cases.
    + destruct (load_url_broken_records s) as (R & n & E). split; [exact R|].
      split; [rewrite E; apply last_snoc|].
      unfold BrowserBroken.load_url, BrowserBroken.add_to_history,
        BrowserBroken.update_navigation_buttons,
        Browser.update_navigation_buttons. py_run. py_cases.
  - intros r evs. apply run_all_have_scheme. constructor.
  - intros r cs. apply run_broken_all_have_scheme.
    rewrite init_broken_history. constructor.
  - intros r. split.
    + vm_compute. reflexivity.
    + cbn [BrowserBroken.run BrowserBroken.handle].
      change (exec (modify (setText EmptyString)) (BrowserBroken.__init__ r))
        with (setText EmptyString (BrowserBroken.__init__ r)).
      destruct (load_url_broken_records
                  (setText EmptyString (BrowserBroken.__init__ r)))
        as (_ & n & E).
      rewrite E. cbn [history setText address_bar].
      rewrite init_broken_history. rewrite take_nil. reflexivity.
Qed.

(** *** No input is rejected *)

Lemma load_url_navigated (s : PrivacyBrowser) :
  history_ok s ->
  returns Browser.load_url s
  /\ navigated (Browser.normalize (address_bar s)) s (exec Browser.load_url s).
Proof.
  intros Hok. unfold returns, exec. rewrite load_url_unfold.
  exact (add_to_history_navigated (Browser.normalize (address_bar s))
           (engine (SetUrl (Browser.normalize (address_bar s))) s) Hok).
Qed.

Lemma load_url_broken_navigated (s : PrivacyBrowser) :
  history_ok s ->
  returns BrowserBroken.load_url s
  /\ navigated (Browser.normalize (address_bar s)) s
       (exec BrowserBroken.load_url s).
Proof.
  intros Hok. unfold returns, exec. rewrite load_url_broken_unfold.
  cbv zeta.
  exact (add_to_history_broken_navigated (Browser.normalize (address_bar s))
           (engine (SetUrl (Browser.normalize (address_bar s)))
              (showMessage
                 ("Loading " +:+ Browser.normalize (address_bar s) +:+ "...")
                 s)) Hok).
Qed.

(** The empty text and a text that is no URL, typed into a fresh window
    of browser.py: both reach the history and move the index. *)
Lemma load_url_empty_not_rejected :
  let s := Browser.__init__ rng0 in
  let empty := Browser.run [Type_ EmptyString; Go] s in
  let malformed := Browser.run [Type_ "ht!tp:// not a url"; Go] s in
  history s = [] /\ current_index s = -1
  /\ history empty = ["https://"] /\ current_index empty = 0
  /\ history malformed = ["https://ht!tp:// not a url"]
  /\ current_index malformed = 0
  /\ ~ (history empty = history s /\ current_index empty = current_index s).
Proof.
  vm_compute. repeat split; try reflexivity. intros [H _]. discriminate H.
Qed.

(** C3, as the code has it. [load_url] has no validation: for every text
    of the address bar, the empty one and any malformed one included, in
    a window whose history satisfies [-1 <= index < length], it returns
    and records the normalised text: the history becomes the entries up to
    the current one followed by that URL, and the index moves forward by
    one onto it.  This holds in browser.py and in browser_broken.py. *)
Theorem load_url_never_rejects (s : PrivacyBrowser) :
  -1 <= current_index s < PySeq.len (history s) ->
  let url := Browser.normalize (address_bar s) in
  let kept := take (Z.to_nat (current_index s + 1)) (history s) in
  (returns Browser.load_url s
   /\ history (exec Browser.load_url s) = kept ++ [url]
   /\ current_index (exec Browser.load_url s) = current_index s + 1)
  /\ (returns BrowserBroken.load_url s
      /\ history (exec BrowserBroken.load_url s) = kept ++ [url]
      /\ current_index (exec BrowserBroken.load_url s) = current_index s + 1).
Proof.
  intros Hok. cbv zeta.
  destruct (load_url_navigated s Hok) as (R1 & H1 & _ & I1).
  destruct (load_url_broken_navigated s Hok) as (R2 & H2 & _ & I2).
  auto 10.
Qed.

Lemma load_url_never_rejects_witness :
  let s := setText EmptyString (Browser.__init__ rng0) in
  history (exec Browser.load_url s) = ["https://"]
  /\ current_index (exec Browser.load_url s) = 0
  /\ history (exec BrowserBroken.load_url s) = ["https://"]
  /\ current_index (exec BrowserBroken.load_url s) = 0.
Proof.
  cbv zeta.
  destruct (load_url_never_rejects (setText EmptyString (Browser.__init__ rng0)))
    as ((_ & H1 & I1) & (_ & H2 & I2)).
  - unfold PySeq.len. simpl. lia.
  - repeat split; assumption.
Defined.

(** ** Failed loads *)

Definition is_reload (c : EngineCall) : bool :=
  match c with Reload => true | _ => false end.

(** The number of [reload()] calls a window has made. *)
Definition reloads (s : PrivacyBrowser) : nat :=
  length (filter (fun c => is_reload c = true) (web_view s)).

(** The engine as the slot sees it: every load it is asked for, the first
    one and each reload, ends in one [loadFinished] signal; [outcomes k]
    is the success of load number [k].  The cycle goes on as long as the
    slot answers with a reload; [fuel] bounds the number of signals
    looked at, and the boolean tells whether a load is still under way
    when the fuel is spent. *)
Fixpoint load_cycle (slot : bool -> Py PrivacyBrowser unit)
    (outcomes : nat -> bool) (k fuel : nat) (s : PrivacyBrowser)
  : PrivacyBrowser * bool :=
  match fuel with
  | O => (s, true)
  | S fuel' =>
      let s' := exec (slot (outcomes k)) s in
      match head (web_view s') with
      | Some Reload => load_cycle slot outcomes (S k) fuel' s'
      | _ => (s', false)
      end
  end.

Lemma on_load_finished_failure (s : PrivacyBrowser) :
  exec (Browser.on_load_finished false) s
  = engine Reload (showMessage "Failed to load page" s)
  /\ exec (BrowserBroken.on_load_finished false) s
     = engine Reload (showMessage "Failed to load page" s).
Proof. split; reflexivity. Qed.

Lemma reloads_failure (s : PrivacyBrowser) :
  reloads (engine Reload (showMessage "Failed to load page" s))
  = S (reloads s).
Proof. reflexivity. Qed.

Lemma run_failures (n : nat) (s : PrivacyBrowser) :
  reloads (Browser.run (repeat (LoadFinished false) n) s) = (reloads s + n)%nat.
Proof.
  revert s. induction n as [|n IH]; intros s; cbn [repeat Browser.run].
  - lia.
  - rewrite IH. cbn [Browser.handle].
    destruct (on_load_finished_failure s) as [-> _].
    rewrite reloads_failure. lia.
Qed.

Lemma run_broken_failures (n : nat) (s : PrivacyBrowser) :
  reloads (BrowserBroken.run
             (repeat (BrowserBroken.Slot (LoadFinished false)) n) s)
  = (reloads s + n)%nat.
Proof.
  revert s. induction n as [|n IH]; intros s;
    cbn [repeat BrowserBroken.run].
  - lia.
  - rewrite IH. cbn [BrowserBroken.handle].
    destruct (on_load_finished_failure s) as [_ ->].
    rewrite reloads_failure. lia.
Qed.

(** With an engine whose loads all fail the cycle never ends: whatever
    the fuel, a load is still under way and every signal seen has been
    answered by a reload. *)
Lemma load_cycle_failing (slot : bool -> Py PrivacyBrowser unit)
    (k fuel : nat) (s : PrivacyBrowser) :
  (forall t, exec (slot false) t
             = engine Reload (showMessage "Failed to load page" t)) ->
  snd (load_cycle slot (fun _ => false) k fuel s) = true
  /\ reloads (fst (load_cycle slot (fun _ => false) k fuel s))
     = (reloads s + fuel)%nat.
Proof.
  intros Hslot. revert k s.
  induction fuel as [|fuel IH]; intros k s; cbn [load_cycle].
  - split; [reflexivity|cbn [fst]; lia].
  - rewrite Hslot. cbn [web_view engine head].
    destruct (IH (S k) (engine Reload (showMessage "Failed to load page" s)))
      as [P R].
    split; [exact P|]. rewrite R, reloads_failure. lia.
Qed.

(** A page that fails a thousand times in a row is reloaded a thousand
    times: no bound on the retries holds for all such runs. *)
Lemma reload_unbounded :
  reloads (Browser.run (repeat (LoadFinished false) 1000)
             (Browser.__init__ rng0)) = 1000%nat
  /\ ~ (exists bound : nat, forall n,
          (reloads (Browser.run (repeat (LoadFinished false) n)
                      (Browser.__init__ rng0)) <= bound)%nat)
  /\ ~ (exists bound : nat, forall n,
          (reloads (BrowserBroken.run
                      (repeat (BrowserBroken.Slot (LoadFinished false)) n)
                      (BrowserBroken.__init__ rng0)) <= bound)%nat).
Proof.
  split; [apply (run_failures 1000)|]. split.
  - intros [bound H]. specialize (H (S bound)).
    rewrite run_failures in H. lia.
  - intros [bound H]. specialize (H (S bound)).
    rewrite run_broken_failures in H. lia.
Qed.

(** C8, as the code has it. A [loadFinished] signal with [success=false]
    makes the slot show the status message and call [reload()] once, in
    both files.  The slot keeps no count of retries: [n] failures in a row
    are answered by [n] reloads, for every [n], and against an engine
    whose loads all fail the cycle of reload and failure has no end. *)
Theorem on_load_finished_retries :
  (forall s,
     exec (Browser.on_load_finished false) s
     = engine Reload (showMessage "Failed to load page" s)
     /\ exec (BrowserBroken.on_load_finished false) s
        = engine Reload (showMessage "Failed to load page" s))
  /\ (forall s,
        reloads (exec (Browser.on_load_finished false) s) = S (reloads s)
        /\ status_bar (exec (Browser.on_load_finished false) s)
           = "Failed to load page"
        /\ reloads (exec (BrowserBroken.on_load_finished false) s)
           = S (reloads s)
        /\ status_bar (exec (BrowserBroken.on_load_finished false) s)
           = "Failed to load page")
  /\ (forall s n,
        reloads (Browser.run (repeat (LoadFinished false) n) s)
        = (reloads s + n)%nat
        /\ reloads (BrowserBroken.run
                      (repeat (BrowserBroken.Slot (LoadFinished false)) n) s)
           = (reloads s + n)%nat)
  /\ (forall s k fuel,
        load_cycle Browser.on_load_finished (fun _ => false) k fuel s
        = (fst (load_cycle Browser.on_load_finished (fun _ => false) k fuel s),
           true)
        /\ reloads
             (fst (load_cycle Browser.on_load_finished (fun _ => false)
                     k fuel s))
           = (reloads s + fuel)%nat).
Proof.
  split; [exact on_load_finished_failure|]. split; [|split].
  - intros s. repeat split.
  - intros s n. split; [apply run_failures | apply run_broken_failures].
  - intros s k fuel.
    destruct (load_cycle_failing Browser.on_load_finished k fuel s) as [P R].
    { intros t. reflexivity. }
    split; [|exact R].
    destruct (load_cycle _ _ _ _ _) as [s' b]. cbn in *. now subst b.
Qed.

(** ** Cookie policy *)

Definition with_policy (policy : string) : cookie_manager.t :=
  {| cookie_manager.cookie_policy := policy |}.

(** C5. [should_accept_cookie] rejects every cookie under [block_all],
    accepts every cookie under [allow_all], and under [block_third_party]
    accepts exactly when the request domain occurs inside the domain of
    the cookie; a cookie of [ads.example.com] is rejected for [site.com]
    and accepted for [example.com]. *)
Theorem should_accept_cookie_policy
    (cookie : cookie_manager.Cookie) (request_domain : string) :
  cookie_manager.should_accept_cookie (with_policy "block_all")
    cookie request_domain = false
  /\ cookie_manager.should_accept_cookie (with_policy "allow_all")
       cookie request_domain = true
  /\ (cookie_manager.should_accept_cookie (with_policy "block_third_party")
        cookie request_domain = true
      <-> exists pre post,
            cookie_manager.domain cookie = pre +:+ request_domain +:+ post)
  /\ cookie_manager.should_accept_cookie (with_policy "block_third_party")
       {| cookie_manager.domain := "ads.example.com" |} "site.com" = false
  /\ cookie_manager.should_accept_cookie (with_policy "block_third_party")
       {| cookie_manager.domain := "ads.example.com" |} "example.com" = true
  /\ cookie_manager.cookie_policy cookie_manager.__init__
     = "block_third_party".
Proof.
  split; [reflexivity|]. split; [reflexivity|]. split.
  - unfold cookie_manager.should_accept_cookie, with_policy.
    cbn [cookie_manager.cookie_policy].
    change (String.eqb "block_third_party" "block_all") with false.
    change (String.eqb "block_third_party" "block_third_party") with true.
    cbv iota. apply contains_iff.
  - repeat split.
Qed.

(** C10. Every policy string other than [block_all] and
    [block_third_party] accepts every cookie, as [allow_all] does. *)
Theorem should_accept_cookie_fails_open
    (self : cookie_manager.t) (cookie : cookie_manager.Cookie)
    (request_domain : string) :
  cookie_manager.cookie_policy self <> "block_all" ->
  cookie_manager.cookie_policy self <> "block_third_party" ->
  cookie_manager.should_accept_cookie self cookie request_domain = true
  /\ cookie_manager.should_accept_cookie self cookie request_domain
     = cookie_manager.should_accept_cookie (with_policy "allow_all")
         cookie request_domain.
Proof.
  intros H1 H2. unfold cookie_manager.should_accept_cookie.
  apply String.eqb_neq in H1, H2. rewrite H1, H2. split; reflexivity.
Qed.

Lemma should_accept_cookie_fails_open_witness :
  cookie_manager.should_accept_cookie (with_policy "block_third_partie")
    {| cookie_manager.domain := "ads.example.com" |} "site.com" = true.
Proof.
  apply (should_accept_cookie_fails_open (with_policy "block_third_partie")
           {| cookie_manager.domain := "ads.example.com" |} "site.com");
    simpl; discriminate.
Defined.

(** ** Header builders *)

Ltac header_lookup :=
  repeat (rewrite lookup_insert_ne by discriminate);
  first [rewrite lookup_insert_eq | rewrite lookup_empty]; reflexivity.

(** [get_headers_with_random_fingerprints] returns for every random
    source; its [User-Agent] and [Accept-Language] are those of the
    fingerprint this very call generates. *)
Lemma get_headers_with_random_fingerprints_ok
    (p : FingerPrintProtector.t) (r : Rng) :
  pools_nonempty p ->
  exists fingerprint headers,
    FingerPrintProtector.generate_random_fingerprint p r
    = (Ok fingerprint, Nat.iter 15 advance r)
    /\ FingerPrintProtector.get_headers_with_random_fingerprints p r
       = (Ok headers, Nat.iter 15 advance r)
    /\ headers !! "User-Agent" = Some (Fingerprint.user_agent fingerprint)
    /\ headers !! "Accept-Language" = Some (Fingerprint.language fingerprint)
    /\ headers !! "DNT" = Some "1"
    /\ headers !! "Upgrade-Insecure-Requests" = Some "1"
    /\ headers !! "Accept-Encoding" = Some "gzip, deflate"
    /\ headers !! "Sec-Fetch-Dest" = None
    /\ headers !! "Sec-Fetch-Mode" = None
    /\ headers !! "Sec-Fetch-Site" = None
    /\ headers !! "Cache-Control" = None.
Proof.
  intros Hp.
  destruct (generate_random_fingerprint_ok p r Hp) as (fingerprint & E & _).
  exists fingerprint. eexists. split; [exact E|].
  unfold FingerPrintProtector.get_headers_with_random_fingerprints, bind.
  rewrite E. unfold ret. split; [reflexivity|].
  repeat split; header_lookup.
Qed.

Lemma set_headers_eq (info : RequestInfo.t) :
  RequestInfo.httpHeaders (PrivacyRequestInterceptor.set_headers info) =
  <["Cache-Control" := "max-age=0"]>
  (<["Sec-Fetch-User" := "?1"]>
  (<["Sec-Fetch-Site" := "none"]>
  (<["Sec-Fetch-Mode" := "navigate"]>
  (<["Sec-Fetch-Dest" := "document"]>
  (<["Upgrade-Insecure-Requests" := "1"]>
  (<["Connection" := "keep-alive"]>
  (<["DNT" := "1"]>
  (<["Accept-Encoding" := "gzip, deflate, br"]>
  (<["Accept-Language" := "en-US,en;q=0.9"]>
  (<["Accept" :=
     "text/html,application/xhtml+xml,application/xml;q=0.9,image/avif,image/webp,image/apng,*/*;q=0.8,application/signed-exchange;v=b3;q=0.7"]>
     (RequestInfo.httpHeaders info))))))))))).
Proof. reflexivity. Qed.

(** Both paths of [interceptRequest] leave the same request behind. *)
Lemma interceptRequest_fst (info : RequestInfo.t) :
  fst (PrivacyRequestInterceptor.interceptRequest info)
  = PrivacyRequestInterceptor.set_headers info.
Proof.
  unfold PrivacyRequestInterceptor.interceptRequest.
  now destruct (PrivacyRequestInterceptor.is_google_essential _).
Qed.

(** The headers [interceptRequest] leaves on a request. *)
Lemma interceptRequest_headers (info : RequestInfo.t) :
  let h := RequestInfo.httpHeaders
             (fst (PrivacyRequestInterceptor.interceptRequest info)) in
  h !! "DNT" = Some "1"
  /\ h !! "Upgrade-Insecure-Requests" = Some "1"
  /\ h !! "Accept-Encoding" = Some "gzip, deflate, br"
  /\ h !! "Sec-Fetch-Dest" = Some "document"
  /\ h !! "Sec-Fetch-Mode" = Some "navigate"
  /\ h !! "Sec-Fetch-Site" = Some "none"
  /\ h !! "Sec-Fetch-User" = Some "?1"
  /\ h !! "Cache-Control" = Some "max-age=0"
  /\ h !! "Accept-Language" = Some "en-US,en;q=0.9"
  /\ h !! "User-Agent" = RequestInfo.httpHeaders info !! "User-Agent".
Proof.
  cbv zeta. rewrite interceptRequest_fst, set_headers_eq.
  repeat split; try header_lookup.
  repeat (rewrite lookup_insert_ne by discriminate). reflexivity.
Qed.

Lemma get_privacy_headers_eq (self : EnhancedPrivacyProtector.t) :
  EnhancedPrivacyProtector.get_privacy_headers self =
  <["Sec-Fetch-Site" := "none"]>
  (<["Sec-Fetch-Mode" := "navigate"]>
  (<["Sec-Fetch-Dest" := "document"]>
  (<["Upgrade-Insecure-Requests" := "1"]>
  (<["Connection" := "keep-alive"]>
  (<["DNT" := "1"]>
  (<["Accept-Encoding" := "gzip, deflate"]>
  (<["Accept-Language" := "en-US,en;q=0.5"]>
  (<["Accept" :=
       "text/html,application/xhtml+xml,application/xml;q=0.9,image/webp,*/*;q=0.8"]>
  (<["User-Agent" :=
       "Mozilla/5.0 (Macintosh; Intel Mac OS X 10_15_7) AppleWebKit/537.36 (KHTML, like Gecko) Chrome/120.0.0.0 Safari/537.36"]>
   (∅ : gmap string string)))))))))).
Proof. reflexivity. Qed.

(** The two dictionaries the privacy package returns stop short of the
    baseline: neither has [Cache-Control], and the one built from a
    random fingerprint has no [Sec-Fetch] header either. *)
Lemma privacy_headers_miss_baseline :
  EnhancedPrivacyProtector.get_privacy_headers
    EnhancedPrivacyProtector.__init__ !! "Cache-Control" = None
  /\ exists headers r,
       FingerPrintProtector.get_headers_with_random_fingerprints
         FingerPrintProtector.__init__ rng0 = (Ok headers, r)
       /\ headers !! "Cache-Control" = None
       /\ headers !! "Sec-Fetch-Dest" = None
       /\ headers !! "Sec-Fetch-Mode" = None
       /\ headers !! "Sec-Fetch-Site" = None.
Proof.
  split; [rewrite get_privacy_headers_eq; header_lookup|].
  destruct (get_headers_with_random_fingerprints_ok
              FingerPrintProtector.__init__ rng0 init_pools_nonempty)
    as (fingerprint & headers & _ & E & _ & _ & _ & _ & _ & D & M & S & C).
  exists headers, (Nat.iter 15 advance rng0). auto.
Qed.

(** C6, as the code has it. No header builder raises, whatever its
    input.  The dictionary of [get_privacy_headers] has [DNT: 1],
    [Upgrade-Insecure-Requests: 1], [Accept-Encoding] and the three
    [Sec-Fetch] headers, and no [Cache-Control]; the dictionary of
    [get_headers_with_random_fingerprints] has [DNT: 1],
    [Upgrade-Insecure-Requests: 1] and [Accept-Encoding], and neither
    [Sec-Fetch] headers nor [Cache-Control]; the headers the interceptor
    sets on a request, for every URL string, the empty one included, are
    the whole baseline. *)
Theorem header_baseline :
  (let h := EnhancedPrivacyProtector.get_privacy_headers
              EnhancedPrivacyProtector.__init__ in
   h !! "DNT" = Some "1"
   /\ h !! "Upgrade-Insecure-Requests" = Some "1"
   /\ h !! "Accept-Encoding" = Some "gzip, deflate"
   /\ h !! "Sec-Fetch-Dest" = Some "document"
   /\ h !! "Sec-Fetch-Mode" = Some "navigate"
   /\ h !! "Sec-Fetch-Site" = Some "none"
   /\ h !! "Cache-Control" = None)
  /\ (forall r, exists h,
        FingerPrintProtector.get_headers_with_random_fingerprints
          FingerPrintProtector.__init__ r = (Ok h, Nat.iter 15 advance r)
        /\ h !! "DNT" = Some "1"
        /\ h !! "Upgrade-Insecure-Requests" = Some "1"
        /\ h !! "Accept-Encoding" = Some "gzip, deflate"
        /\ h !! "Sec-Fetch-Dest" = None
        /\ h !! "Sec-Fetch-Mode" = None
        /\ h !! "Sec-Fetch-Site" = None
        /\ h !! "Cache-Control" = None)
  /\ (forall url,
        let h := RequestInfo.httpHeaders
                   (fst (PrivacyRequestInterceptor.interceptRequest
                           (RequestInfo.incoming url))) in
        h !! "DNT" = Some "1"
        /\ h !! "Upgrade-Insecure-Requests" = Some "1"
        /\ h !! "Accept-Encoding" = Some "gzip, deflate, br"
        /\ h !! "Sec-Fetch-Dest" = Some "document"
        /\ h !! "Sec-Fetch-Mode" = Some "navigate"
        /\ h !! "Sec-Fetch-Site" = Some "none"
        /\ h !! "Sec-Fetch-User" = Some "?1"
        /\ h !! "Cache-Control" = Some "max-age=0").
Proof.
  split; [|split].
  - cbv zeta. rewrite get_privacy_headers_eq.
    repeat split; header_lookup.
  - intros r.
    destruct (get_headers_with_random_fingerprints_ok
                FingerPrintProtector.__init__ r init_pools_nonempty)
      as (fingerprint & h & _ & E & _ & _ & H).
    exists h. split; [exact E | exact H].
  - intros url.
    destruct (interceptRequest_headers (RequestInfo.incoming url))
      as (H1 & H2 & H3 & H4 & H5 & H6 & H7 & H8 & _).
    cbv zeta. auto 10.
Qed.

(** ** The identity a session presents *)

(** The user agents set on the engine, latest first. *)
Fixpoint user_agents_set (calls : list EngineCall) : list string :=
  match calls with
  | [] => []
  | SetHttpUserAgent ua :: calls' => ua :: user_agents_set calls'
  | _ :: calls' => user_agents_set calls'
  end.

Lemma load_url_broken_ua (s : PrivacyBrowser) :
  user_agents_set (web_view (exec BrowserBroken.load_url s))
  = user_agents_set (web_view s).
Proof.
  unfold BrowserBroken.load_url, BrowserBroken.add_to_history,
    BrowserBroken.update_navigation_buttons,
    Browser.update_navigation_buttons.
  py_run. py_cases.
Qed.

Lemma go_back_ua (s : PrivacyBrowser) :
  user_agents_set (web_view (exec Browser.go_back s))
  = user_agents_set (web_view s).
Proof.
  unfold Browser.go_back, Browser.update_navigation_buttons, getitem, raise.
  py_run. py_cases.
Qed.

Lemma go_forward_ua (s : PrivacyBrowser) :
  user_agents_set (web_view (exec Browser.go_forward s))
  = user_agents_set (web_view s).
Proof.
  unfold Browser.go_forward, Browser.update_navigation_buttons, getitem,
    raise.
  py_run. py_cases.
Qed.

Lemma refresh_page_ua (s : PrivacyBrowser) :
  user_agents_set (web_view (exec Browser.refresh_page s))
  = user_agents_set (web_view s).
Proof. unfold Browser.refresh_page. py_run. py_cases. Qed.

Lemma on_load_finished_broken_ua (success : bool) (s : PrivacyBrowser) :
  hasattr (fingerprint_applied s) = true ->
  user_agents_set (web_view (exec (BrowserBroken.on_load_finished success) s))
  = user_agents_set (web_view s).
Proof.
  intros H. destruct success; [|reflexivity].
  rewrite (on_load_finished_broken_unfold s H). cbv zeta.
  destruct (PyStr.contains _ _ && _); [|reflexivity].
  destruct (hasattr (google_js_applied s)); reflexivity.
Qed.

Lemma handle_broken_ua (c : BrowserBroken.Call) (s : PrivacyBrowser) :
  hasattr (fingerprint_applied s) = true ->
  user_agents_set (web_view (exec (BrowserBroken.handle c) s))
  = user_agents_set (web_view s).
Proof.
  intros H. destruct c as [e|]; [destruct e|]; cbn [BrowserBroken.handle].
  - reflexivity.
  - apply load_url_broken_ua.
  - apply go_back_ua.
  - apply go_forward_ua.
  - apply refresh_page_ua.
  - reflexivity.
  - now apply on_load_finished_broken_ua.
  - unfold exec. now rewrite apply_fingerprint_protection_applied.
Qed.

Lemma run_broken_ua (cs : list BrowserBroken.Call) (s : PrivacyBrowser) :
  hasattr (fingerprint_applied s) = true ->
  user_agents_set (web_view (BrowserBroken.run cs s))
  = user_agents_set (web_view s).
Proof.
  revert s. induction cs as [|c cs IH]; intros s H; cbn [BrowserBroken.run].
  - reflexivity.
  - rewrite IH; [now apply handle_broken_ua|].
    pose proof (handle_broken_session c s H) as E.
    unfold session_of in E. injection E as E1 _. now rewrite E1.
Qed.

Lemma init_broken_ua (r : Rng) :
  hasattr (fingerprint_applied (BrowserBroken.__init__ r)) = true
  /\ user_agents_set (web_view (BrowserBroken.__init__ r))
     = [BrowserBroken.google_compatible_ua].
Proof.
  destruct (init_broken_session r) as (fingerprint & E & S).
  apply (f_equal fst) in S.
  change (fingerprint_applied (BrowserBroken.__init__ r) = Some true) in S.
  split; [now rewrite S|].
  unfold BrowserBroken.__init__, exec.
  rewrite apply_fingerprint_protection_unfold.
  cbn [hasattr fingerprint_applied fingerprint_protector random].
  rewrite E. reflexivity.
Qed.

(** A random source that counts: draw number [n] is [n]. *)
Definition rng_count : Rng := {| draws := fun n => n; cursor := 0 |}.

(** A header of a dictionary that a builder returned. *)
Definition header_of (o : Outcome (gmap string string)) (name : string)
  : option string :=
  match o with
  | Ok h => h !! name
  | Raised _ => None
  end.

(** A session whose stored profile has the Macintosh user agent and the
    language [en-AU].  The user agent set on the engine is the fixed
    Chrome one, the interceptor sends [en-US,en;q=0.9], and two header
    dictionaries built one after the other carry two further user
    agents: none of these values is read from the stored profile. *)
Lemma headers_not_from_profile :
  let s := BrowserBroken.__init__ rng_count in
  let p := fingerprint_protector s in
  let b1 := FingerPrintProtector.get_headers_with_random_fingerprints p
              (random s) in
  let b2 := FingerPrintProtector.get_headers_with_random_fingerprints p
              (snd b1) in
  let sent := RequestInfo.httpHeaders
                (fst (PrivacyRequestInterceptor.interceptRequest
                        (RequestInfo.incoming "https://example.com/"))) in
  (option_map Fingerprint.user_agent (current_fingerprint s)
   = Some "Mozilla/5.0 (Macintosh; Intel Mac OS X 10_15_7) AppleWebKit/537.36"
   /\ option_map Fingerprint.language (current_fingerprint s) = Some "en-AU")
  /\ (user_agents_set (web_view s)
      = ["Mozilla/5.0 (Macintosh; Intel Mac OS X 10_15_7) AppleWebKit/537.36 (KHTML, like Gecko) Chrome/131.0.0.0 Safari/537.36"]
      /\ sent !! "Accept-Language" = Some "en-US,en;q=0.9"
      /\ sent !! "User-Agent" = None)
  /\ (header_of (fst b1) "User-Agent"
      = Some "Mozilla/5.0 (iPhone; CPU iPhone OS 14_0 like Mac OS X) AppleWebKit/605.1.15"
      /\ header_of (fst b1) "Accept-Language" = Some "en-US"
      /\ header_of (fst b2) "User-Agent"
         = Some "Mozilla/5.0 (X11; Linux x86_64) AppleWebKit/537.36"
      /\ header_of (fst b2) "Accept-Language" = Some "en-AU")
  /\ header_of (fst b1) "User-Agent"
     <> option_map Fingerprint.user_agent (current_fingerprint s)
  /\ header_of (fst b1) "User-Agent" <> header_of (fst b2) "User-Agent"
  /\ sent !! "Accept-Language"
     <> option_map Fingerprint.language (current_fingerprint s).
Proof.
  vm_compute. repeat split; try reflexivity; discriminate.
Qed.

(** C7, as the code has it. The user agent of a session is the fixed
    Chrome string that [apply_fingerprint_protection] sets on the engine
    once, and no later event sets another; the interceptor sets
    [Accept-Language] to [en-US,en;q=0.9] on every request and leaves
    [User-Agent] as it finds it; so the requests of a session do present
    one user agent and one language, but constants, not fields of the
    stored profile.  [get_headers_with_random_fingerprints] takes
    [User-Agent] and [Accept-Language] from a fingerprint that the call
    itself draws, and [get_privacy_headers] has them as constants. *)
Theorem headers_identity :
  (forall r cs,
     user_agents_set (web_view (BrowserBroken.run cs (BrowserBroken.__init__ r)))
     = [BrowserBroken.google_compatible_ua])
  /\ (forall info,
        let h := RequestInfo.httpHeaders
                   (fst (PrivacyRequestInterceptor.interceptRequest info)) in
        h !! "Accept-Language" = Some "en-US,en;q=0.9"
        /\ h !! "User-Agent" = RequestInfo.httpHeaders info !! "User-Agent")
  /\ (forall r, exists fingerprint h,
        FingerPrintProtector.generate_random_fingerprint
          FingerPrintProtector.__init__ r
        = (Ok fingerprint, Nat.iter 15 advance r)
        /\ FingerPrintProtector.get_headers_with_random_fingerprints
             FingerPrintProtector.__init__ r
           = (Ok h, Nat.iter 15 advance r)
        /\ h !! "User-Agent" = Some (Fingerprint.user_agent fingerprint)
        /\ h !! "Accept-Language" = Some (Fingerprint.language fingerprint))
  /\ (let h := EnhancedPrivacyProtector.get_privacy_headers
                 EnhancedPrivacyProtector.__init__ in
      h !! "User-Agent"
      = Some "Mozilla/5.0 (Macintosh; Intel Mac OS X 10_15_7) AppleWebKit/537.36 (KHTML, like Gecko) Chrome/120.0.0.0 Safari/537.36"
      /\ h !! "Accept-Language" = Some "en-US,en;q=0.5").
Proof.
  split; [|split; [|split]].
  - intros r cs. destruct (init_broken_ua r) as [F U].
    now rewrite run_broken_ua.
  - intros info.
    destruct (interceptRequest_headers info)
      as (_ & _ & _ & _ & _ & _ & _ & _ & L & U).
    cbv zeta. auto.
  - intros r.
    destruct (get_headers_with_random_fingerprints_ok
                FingerPrintProtector.__init__ r init_pools_nonempty)
      as (fingerprint & h & G & E & U & L & _).
    exists fingerprint, h. auto.
  - cbv zeta. rewrite get_privacy_headers_eq. split; header_lookup.
Qed.

(** ** The interceptor and the tracker and ad lists *)

Ltac in_list :=
  apply list_elem_of_In; cbn [In];
  repeat (first [left; reflexivity | right]).

Lemma is_google_essential_iff (url : string) :
  PrivacyRequestInterceptor.is_google_essential url = true
  <-> exists domain pre post,
        domain ∈ PrivacyRequestInterceptor.google_essential_domains
        /\ url = pre +:+ domain +:+ post.
Proof.
  unfold PrivacyRequestInterceptor.is_google_essential.
  rewrite existsb_exists. split.
  - intros (domain & Hin & Hc). apply contains_iff in Hc as (pre & post & E).
    exists domain, pre, post. split; [now apply list_elem_of_In | exact E].
  - intros (domain & pre & post & Hin & E). exists domain.
    split; [now apply list_elem_of_In|].
    apply contains_iff. now exists pre, post.
Qed.

Lemma interceptRequest_unfold (info : RequestInfo.t) :
  PrivacyRequestInterceptor.interceptRequest info
  = (PrivacyRequestInterceptor.set_headers info,
     if PrivacyRequestInterceptor.is_google_essential
          (RequestInfo.requestUrl info)
     then ["Allowing Google resource: " +:+ RequestInfo.requestUrl info]
     else []).
Proof.
  unfold PrivacyRequestInterceptor.interceptRequest.
  now destruct (PrivacyRequestInterceptor.is_google_essential _).
Qed.

(** A request to an ad network that is not on the allow list: the order
    of the specification makes it [Ad]; the interceptor takes the path of
    any unlisted URL, prints nothing and lets the request go on, with the
    headers it sets on a request to [example.org]. *)
Lemma interceptor_ignores_ad_list :
  let url := "https://adnxs.com/pixel" in
  let other := "https://example.org/" in
  let after := PrivacyRequestInterceptor.interceptRequest
                 (RequestInfo.incoming url) in
  let after_other := PrivacyRequestInterceptor.interceptRequest
                       (RequestInfo.incoming other) in
  Spec.classify Spec.source_policy url = Spec.Ad
  /\ Spec.classify Spec.source_policy other = Spec.Allowed
  /\ PrivacyRequestInterceptor.is_google_essential url = false
  /\ RequestInfo.blocked (fst after) = false
  /\ snd after = []
  /\ RequestInfo.blocked (fst after_other) = RequestInfo.blocked (fst after)
  /\ RequestInfo.httpHeaders (fst after_other)
     = RequestInfo.httpHeaders (fst after)
  /\ snd after_other = snd after.
Proof.
  cbv zeta. rewrite !interceptRequest_unfold. cbn [fst snd].
  split; [vm_compute; reflexivity|]. split; [vm_compute; reflexivity|].
  split; [vm_compute; reflexivity|]. split; [reflexivity|].
  split; [vm_compute; reflexivity|]. split; [reflexivity|].
  split; [|vm_compute; reflexivity].
  now rewrite !set_headers_eq.
Qed.

(** C4, as the code has it. The decision of the interceptor is a total
    function of the request.  Its one test is the allow list, matched as
    a substring of the whole URL, and it comes first; whatever the test
    gives, the request goes on: no path blocks it, and the ad and tracker
    lists are not read.  So a URL with [doubleclick.net], which is on the
    ad list, the tracker list and the allow list, is let through as an
    essential resource. *)
Theorem interceptRequest_allows :
  (forall info,
     let after := PrivacyRequestInterceptor.interceptRequest info in
     RequestInfo.blocked (fst after) = RequestInfo.blocked info
     /\ RequestInfo.requestUrl (fst after) = RequestInfo.requestUrl info
     /\ snd after
        = if PrivacyRequestInterceptor.is_google_essential
               (RequestInfo.requestUrl info)
          then ["Allowing Google resource: " +:+ RequestInfo.requestUrl info]
          else [])
  /\ (forall url,
        RequestInfo.blocked
          (fst (PrivacyRequestInterceptor.interceptRequest
                  (RequestInfo.incoming url))) = false)
  /\ (forall url,
        PrivacyRequestInterceptor.is_google_essential url = true
        <-> exists domain pre post,
              domain ∈ PrivacyRequestInterceptor.google_essential_domains
              /\ url = pre +:+ domain +:+ post)
  /\ ("doubleclick.net"
        ∈ EnhancedPrivacyProtector.ad_domains EnhancedPrivacyProtector.__init__
      /\ "doubleclick.net"
           ∈ EnhancedPrivacyProtector.trackers EnhancedPrivacyProtector.__init__
      /\ "doubleclick.net" ∈ PrivacyRequestInterceptor.google_essential_domains
      /\ forall pre post,
           let url := pre +:+ "doubleclick.net" +:+ post in
           PrivacyRequestInterceptor.is_google_essential url = true
           /\ PrivacyRequestInterceptor.interceptRequest
                (RequestInfo.incoming url)
              = (PrivacyRequestInterceptor.set_headers
                   (RequestInfo.incoming url),
                 ["Allowing Google resource: " +:+ url])).
Proof.
  assert ("doubleclick.net"
            ∈ PrivacyRequestInterceptor.google_essential_domains) as Hin.
  { unfold PrivacyRequestInterceptor.google_essential_domains.
    in_list. }
  split; [|split; [|split]].
  - intros info. cbv zeta. rewrite interceptRequest_unfold. cbn [fst snd].
    repeat split.
  - intros url. rewrite interceptRequest_unfold. reflexivity.
  - exact is_google_essential_iff.
  - split; [|split; [|split]].
    + unfold EnhancedPrivacyProtector.__init__.
      cbn [EnhancedPrivacyProtector.ad_domains].
      apply elem_of_list_to_set. in_list.
    + unfold EnhancedPrivacyProtector.__init__.
      cbn [EnhancedPrivacyProtector.trackers].
      apply elem_of_list_to_set. in_list.
    + exact Hin.
    + intros pre post. cbv zeta.
      assert (PrivacyRequestInterceptor.is_google_essential
                (pre +:+ "doubleclick.net" +:+ post) = true) as E.
      { apply is_google_essential_iff.
        now exists "doubleclick.net", pre, post. }
      split; [exact E|]. rewrite interceptRequest_unfold.
      cbn [RequestInfo.requestUrl RequestInfo.incoming]. now rewrite E.
Qed.

(** * Further properties *)

(** ** Windows that events can reach *)

(** The URL the engine was last asked to show. *)
Fixpoint requested_url (calls : list EngineCall) : option string :=
  match calls with
  | [] => None
  | SetUrl url :: _ => Some url
  | _ :: calls' => requested_url calls'
  end.

(** What every window built by [__init__] and moved by events satisfies:
    the index stays inside the history, the two arrows are enabled exactly
    when there is a page on their side, and once a page is recorded the
    engine was last asked for the current entry. *)
Record window_ok (s : PrivacyBrowser) : Prop := {
  ok_index : -1 <= current_index s < PySeq.len (history s);
  ok_back : back_btn s = (0 <? current_index s);
  ok_forward :
    forward_btn s = (current_index s <? PySeq.len (history s) - 1);
  ok_engine :
    0 <= current_index s ->
    requested_url (web_view s) = history s !! Z.to_nat (current_index s)
}.

Lemma update_navigation_buttons_unfold (s : PrivacyBrowser) :
  Browser.update_navigation_buttons s
  = (Ok tt,
     set_forward_btn (current_index s <? PySeq.len (history s) - 1)
       (set_back_btn (0 <? current_index s) s)).
Proof.
  unfold Browser.update_navigation_buttons. py_run.
  destruct (0 <? current_index s); cbn;
    destruct (current_index s <? _); reflexivity.
Qed.

Lemma getitem_ok {S A : Type} (l : list A) (i : Z) (s : S) :
  0 <= i < PySeq.len l ->
  exists x, l !! Z.to_nat i = Some x /\ getitem l i s = (Ok x, s).
Proof.
  unfold PySeq.len. intros H.
  destruct (lookup_lt_is_Some_2 l (Z.to_nat i)) as [x Hx]; [lia|].
  exists x. split; [exact Hx|].
  unfold getitem, PySeq.index_of.
  destruct (i <? 0) eqn:E; [apply Z.ltb_lt in E; lia|].
  replace ((0 <=? i) && (i <? Z.of_nat (length l))) with true
    by (symmetry; apply andb_true_iff; split;
        [apply Z.leb_le | apply Z.ltb_lt]; lia).
  now rewrite Hx.
Qed.

(** [go_back] away from the first entry. *)
Lemma go_back_unfold (s : PrivacyBrowser) :
  history_ok s -> 0 < current_index s ->
  exists url,
    history s !! Z.to_nat (current_index s - 1) = Some url
    /\ Browser.go_back s
       = (Ok tt,
          set_forward_btn (current_index s - 1 <? PySeq.len (history s) - 1)
            (set_back_btn (0 <? current_index s - 1)
               (engine (SetUrl url)
                  (set_current_index (current_index s - 1) s)))).
Proof.
  unfold history_ok. intros Hok Hpos.
  destruct (getitem_ok (history s) (current_index s - 1)
              (set_current_index (current_index s - 1) s)) as (url & Hu & G);
    [lia|].
  exists url. split; [exact Hu|].
  unfold Browser.go_back, when, bind, gets, modify.
  replace (0 <? current_index s) with true by (symmetry; apply Z.ltb_lt; lia).
  cbn [history current_index set_current_index].
  rewrite G. now rewrite update_navigation_buttons_unfold.
Qed.

(** [go_forward] away from the last entry. *)
Lemma go_forward_unfold (s : PrivacyBrowser) :
  history_ok s -> current_index s < PySeq.len (history s) - 1 ->
  exists url,
    history s !! Z.to_nat (current_index s + 1) = Some url
    /\ Browser.go_forward s
       = (Ok tt,
          set_forward_btn (current_index s + 1 <? PySeq.len (history s) - 1)
            (set_back_btn (0 <? current_index s + 1)
               (engine (SetUrl url)
                  (set_current_index (current_index s + 1) s)))).
Proof.
  unfold history_ok. intros Hok Hlt.
  destruct (getitem_ok (history s) (current_index s + 1)
              (set_current_index (current_index s + 1) s)) as (url & Hu & G);
    [lia|].
  exists url. split; [exact Hu|].
  unfold Browser.go_forward, when, bind, gets, modify.
  cbn [fst snd].
  replace (current_index s <? PySeq.len (history s) - 1) with true
    by (symmetry; apply Z.ltb_lt; lia).
  cbn [history current_index set_current_index].
  rewrite G. now rewrite update_navigation_buttons_unfold.
Qed.

(** At the first entry, or in an empty history, [go_back] does nothing. *)
Lemma go_back_first (s : PrivacyBrowser) :
  current_index s <= 0 -> Browser.go_back s = (Ok tt, s).
Proof.
  intros H. unfold Browser.go_back, when, bind, gets.
  replace (0 <? current_index s) with false
    by (symmetry; apply Z.ltb_ge; lia).
  reflexivity.
Qed.

(** At the last entry [go_forward] does nothing. *)
Lemma go_forward_last (s : PrivacyBrowser) :
  PySeq.len (history s) - 1 <= current_index s ->
  Browser.go_forward s = (Ok tt, s).
Proof.
  intros H. unfold Browser.go_forward, when, bind, gets. cbn [fst snd].
  replace (current_index s <? PySeq.len (history s) - 1) with false
    by (symmetry; apply Z.ltb_ge; lia).
  reflexivity.
Qed.

(** *** Every slot keeps a window in order *)

Lemma window_ok_recorded (pre : list string) (url : string)
    (s1 : PrivacyBrowser) :
  requested_url (web_view s1) = Some url ->
  window_ok
    (exec Browser.update_navigation_buttons
       (set_current_index (PySeq.len (pre ++ [url]) - 1)
          (set_history (pre ++ [url]) s1))).
Proof.
  intros Hreq. unfold exec. rewrite update_navigation_buttons_unfold.
  cbn [snd]. 
  assert (PySeq.len (pre ++ [url]) - 1 = Z.of_nat (length pre)) as E.
  { unfold PySeq.len. rewrite length_app. simpl. lia. }
  split; cbn [history current_index back_btn forward_btn web_view
                set_forward_btn set_back_btn set_current_index set_history].
  - unfold PySeq.len in *. rewrite length_app in *. simpl in *. lia.
  - reflexivity.
  - reflexivity.
  - intros _. rewrite Hreq, E, Nat2Z.id.
    symmetry. apply list_lookup_middle. reflexivity.
Qed.

Lemma load_url_window_ok (s : PrivacyBrowser) :
  window_ok (exec Browser.load_url s).
Proof.
  unfold exec at 1. rewrite load_url_unfold, add_to_history_unfold.
  cbv zeta. apply window_ok_recorded. reflexivity.
Qed.

Lemma load_url_broken_window_ok (s : PrivacyBrowser) :
  window_ok (exec BrowserBroken.load_url s).
Proof.
  unfold exec at 1. rewrite load_url_broken_unfold. cbv zeta.
  rewrite add_to_history_broken_unfold. cbv zeta.
  apply window_ok_recorded. reflexivity.
Qed.

Lemma go_back_window_ok (s : PrivacyBrowser) :
  window_ok s ->
  Browser.go_back s = (Ok tt, exec Browser.go_back s)
  /\ window_ok (exec Browser.go_back s).
Proof.
  intros [Hi Hb Hf He]. unfold exec.
  destruct (Z_lt_le_dec 0 (current_index s)) as [Hpos|Hle].
  - destruct (go_back_unfold s Hi Hpos) as (url & Hu & ->).
    split; [reflexivity|]. cbn [snd].
    split; cbn [history current_index back_btn forward_btn web_view
                  set_forward_btn set_back_btn set_current_index engine
                  requested_url]; try reflexivity; [lia|].
    intros _. now rewrite Hu.
  - rewrite (go_back_first s Hle). split; [reflexivity|]. now split.
Qed.

Lemma go_forward_window_ok (s : PrivacyBrowser) :
  window_ok s ->
  Browser.go_forward s = (Ok tt, exec Browser.go_forward s)
  /\ window_ok (exec Browser.go_forward s).
Proof.
  intros [Hi Hb Hf He]. unfold exec.
  destruct (Z_lt_le_dec (current_index s) (PySeq.len (history s) - 1))
    as [Hlt|Hle].
  - destruct (go_forward_unfold s Hi Hlt) as (url & Hu & ->).
    split; [reflexivity|]. cbn [snd].
    split; cbn [history current_index back_btn forward_btn web_view
                  set_forward_btn set_back_btn set_current_index engine
                  requested_url]; try reflexivity; [lia|].
    intros _. now rewrite Hu.
  - rewrite (go_forward_last s Hle). split; [reflexivity|]. now split.
Qed.

Lemma refresh_page_unfold (s : PrivacyBrowser) :
  Browser.refresh_page s
  = (Ok tt,
     if String.eqb (current_url s) EmptyString then s else engine Reload s).
Proof.
  unfold Browser.refresh_page, when, bind, gets, modify, ret.
  now destruct (String.eqb (current_url s) EmptyString).
Qed.

Lemma refresh_page_window_ok (s : PrivacyBrowser) :
  window_ok s -> window_ok (exec Browser.refresh_page s).
Proof.
  intros H. unfold exec. rewrite refresh_page_unfold. cbn [snd].
  destruct (String.eqb (current_url s) EmptyString); [exact H|].
  destruct H as [Hi Hb Hf He]. now split.
Qed.

Lemma on_url_changed_window_ok (url : string) (s : PrivacyBrowser) :
  window_ok s -> window_ok (exec (Browser.on_url_changed url) s).
Proof. intros [Hi Hb Hf He]. now split. Qed.

Lemma on_load_finished_window_ok (success : bool) (s : PrivacyBrowser) :
  window_ok s -> window_ok (exec (Browser.on_load_finished success) s).
Proof. intros [Hi Hb Hf He]. destruct success; now split. Qed.

Lemma handle_window_ok (e : Event) (s : PrivacyBrowser) :
  window_ok s ->
  returns (Browser.handle e) s /\ window_ok (exec (Browser.handle e) s).
Proof.
  intros H. destruct e; cbn [Browser.handle].
  - split; [now exists tt|]. destruct H as [Hi Hb Hf He]. now split.
  - split; [apply load_url_records | apply load_url_window_ok].
  - destruct (go_back_window_ok s H) as [E W].
    split; [exists tt; now rewrite E | exact W].
  - destruct (go_forward_window_ok s H) as [E W].
    split; [exists tt; now rewrite E | exact W].
  - split; [exists tt; now rewrite refresh_page_unfold
           | now apply refresh_page_window_ok].
  - split; [now exists tt | now apply on_url_changed_window_ok].
  - split; [destruct success; now exists tt
           | now apply on_load_finished_window_ok].
Qed.

Lemma init_window_ok (r : Rng) : window_ok (Browser.__init__ r).
Proof.
  split; cbn; try reflexivity; [unfold PySeq.len; simpl; lia | intros H; lia].
Qed.

Lemma run_window_ok (evs : list Event) (s : PrivacyBrowser) :
  window_ok s -> window_ok (Browser.run evs s).
Proof.
  revert s. induction evs as [|e evs IH]; intros s H; cbn [Browser.run].
  - exact H.
  - apply IH. now apply handle_window_ok.
Qed.

(** *** The same for browser_broken.py *)

(** A window of browser_broken.py in order: the flag of the fingerprint
    is there as well, as [__init__] leaves it. *)
Definition broken_ok (s : PrivacyBrowser) : Prop :=
  window_ok s /\ hasattr (fingerprint_applied s) = true.

Lemma on_load_finished_broken_returns (success : bool) (s : PrivacyBrowser) :
  hasattr (fingerprint_applied s) = true ->
  BrowserBroken.on_load_finished success s
  = (Ok tt, exec (BrowserBroken.on_load_finished success) s).
Proof.
  intros H. destruct success; [|reflexivity].
  unfold exec, BrowserBroken.on_load_finished, bind, gets, modify, when, ret.
  cbn. rewrite H. cbn.
  destruct (PyStr.contains _ _ && _); cbn; [|reflexivity].
  unfold BrowserBroken.apply_google_compatibility_fixes, bind, gets, modify,
    ret. cbn.
  destruct (hasattr (google_js_applied s)); reflexivity.
Qed.

Lemma on_load_finished_broken_window_ok (success : bool) (s : PrivacyBrowser) :
  broken_ok s -> broken_ok (exec (BrowserBroken.on_load_finished success) s).
Proof.
  intros [[Hi Hb Hf He] H]. destruct success.
  - rewrite (on_load_finished_broken_unfold s H). cbv zeta.
    destruct (PyStr.contains _ _ && _);
      [destruct (hasattr (google_js_applied s))|]; now repeat split.
  - now repeat split.
Qed.

Lemma handle_broken_ok (c : BrowserBroken.Call) (s : PrivacyBrowser) :
  broken_ok s ->
  returns (BrowserBroken.handle c) s
  /\ broken_ok (exec (BrowserBroken.handle c) s).
Proof.
  intros [W H].
  assert (hasattr (fingerprint_applied (exec (BrowserBroken.handle c) s))
          = true) as H'.
  { pose proof (handle_broken_session c s H) as E.
    apply (f_equal fst) in E. cbn [fst session_of] in E. now rewrite E. }
  unfold broken_ok. split; [|split; [|exact H']]; clear H';
    (destruct c as [e|]; [destruct e|]; cbn [BrowserBroken.handle]).
  - now exists tt.
  - apply load_url_broken_records.
  - destruct (go_back_window_ok s W) as [E _]. exists tt.
    unfold BrowserBroken.go_back. now rewrite E.
  - destruct (go_forward_window_ok s W) as [E _]. exists tt.
    unfold BrowserBroken.go_forward. now rewrite E.
  - exists tt. unfold BrowserBroken.refresh_page.
    now rewrite refresh_page_unfold.
  - now exists tt.
  - exists tt. now rewrite on_load_finished_broken_returns.
  - exists tt. now rewrite apply_fingerprint_protection_applied.
  - destruct W as [Hi Hb Hf He]. now split.
  - apply load_url_broken_window_ok.
  - now apply go_back_window_ok.
  - now apply go_forward_window_ok.
  - now apply refresh_page_window_ok.
  - now apply on_url_changed_window_ok.
  - now apply on_load_finished_broken_window_ok.
  - unfold exec. now rewrite apply_fingerprint_protection_applied.
Qed.

Lemma run_broken_ok (cs : list BrowserBroken.Call) (s : PrivacyBrowser) :
  broken_ok s -> broken_ok (BrowserBroken.run cs s).
Proof.
  revert s. induction cs as [|c cs IH]; intros s H; cbn [BrowserBroken.run].
  - exact H.
  - apply IH. now apply handle_broken_ok.
Qed.

(** The window [__init__] of browser_broken.py builds, spelled out. *)
Lemma init_broken_unfold (r : Rng) :
  exists fingerprint,
    FingerPrintProtector.generate_random_fingerprint
      FingerPrintProtector.__init__ r
    = (Ok fingerprint, Nat.iter 15 advance r)
    /\ BrowserBroken.__init__ r
       = {| history := []; current_index := -1; current_url := EmptyString;
            address_bar := "https://duckduckgo.com";
            status_bar := "Ready - Enter a URL and press Go or Enter";
            back_btn := false; forward_btn := false;
            web_view :=
              [ Show; SetHttpUserAgent BrowserBroken.google_compatible_ua;
                SetUrl "https://duckduckgo.com" ];
            fingerprint_protector := FingerPrintProtector.__init__;
            fingerprint_applied := Some true;
            current_fingerprint := Some fingerprint;
            google_fixes_applied := None; google_js_applied := None;
            random := Nat.iter 15 advance r |}.
Proof.
  destruct (generate_random_fingerprint_ok FingerPrintProtector.__init__ r
              init_pools_nonempty) as (fingerprint & E & _).
  exists fingerprint. split; [exact E|].
  unfold BrowserBroken.__init__, exec.
  rewrite apply_fingerprint_protection_unfold.
  cbn [hasattr fingerprint_applied fingerprint_protector random].
  rewrite E. reflexivity.
Qed.

Lemma init_broken_ok (r : Rng) : broken_ok (BrowserBroken.__init__ r).
Proof.
  destruct (init_broken_unfold r) as (fingerprint & _ & ->).
  split; [|reflexivity].
  split; cbn; try reflexivity; [unfold PySeq.len; simpl; lia | intros H; lia].
Qed.

(** ** The history as a state machine *)

(** X1. In every window that events can reach from [__init__], in either
    file, the index lies between [-1] and the last position of the
    history. *)
Theorem index_stays_in_history :
  (forall r evs,
     let s := Browser.run evs (Browser.__init__ r) in
     -1 <= current_index s < PySeq.len (history s))
  /\ (forall r cs,
        let s := BrowserBroken.run cs (BrowserBroken.__init__ r) in
        -1 <= current_index s < PySeq.len (history s)).
Proof.
  split; intros r l; cbv zeta.
  - apply (run_window_ok l _ (init_window_ok r)).
  - apply (run_broken_ok l _ (init_broken_ok r)).
Qed.


(** X3. In every reachable window the back arrow is enabled exactly when
    the index is above 0, and the forward arrow exactly when the index is
    below the last position. *)
Theorem buttons_mirror_position :
  (forall r evs,
     let s := Browser.run evs (Browser.__init__ r) in
     back_btn s = (0 <? current_index s)
     /\ forward_btn s = (current_index s <? PySeq.len (history s) - 1))
  /\ (forall r cs,
        let s := BrowserBroken.run cs (BrowserBroken.__init__ r) in
        back_btn s = (0 <? current_index s)
        /\ forward_btn s = (current_index s <? PySeq.len (history s) - 1)).
Proof.
  split; intros r l; cbv zeta.
  - destruct (run_window_ok l _ (init_window_ok r)) as [_ Hb Hf _]. auto.
  - destruct (run_broken_ok l _ (init_broken_ok r)) as [[_ Hb Hf _] _]. auto.
Qed.

(** X4. In every reachable window with a recorded page, the URL the
    engine was last asked to show is the current entry of the history. *)
Theorem engine_shows_current_entry :
  (forall r evs,
     let s := Browser.run evs (Browser.__init__ r) in
     0 <= current_index s ->
     requested_url (web_view s) = history s !! Z.to_nat (current_index s))
  /\ (forall r cs,
        let s := BrowserBroken.run cs (BrowserBroken.__init__ r) in
        0 <= current_index s ->
        requested_url (web_view s) = history s !! Z.to_nat (current_index s)).
Proof.
  split; intros r l; cbv zeta.
  - destruct (run_window_ok l _ (init_window_ok r)) as [_ _ _ He]. exact He.
  - destruct (run_broken_ok l _ (init_broken_ok r)) as [[_ _ _ He] _].
    exact He.
Qed.

(** X5. Back then forward, away from the first entry: the history and
    the index are as before, the engine is asked for the previous entry
    and then for the current one again, and the back arrow is enabled. *)
Theorem go_back_then_go_forward (s : PrivacyBrowser) :
  -1 <= current_index s < PySeq.len (history s) ->
  0 < current_index s ->
  exists previous current,
    history s !! Z.to_nat (current_index s - 1) = Some previous
    /\ history s !! Z.to_nat (current_index s) = Some current
    /\ returns Browser.go_back s
    /\ returns Browser.go_forward (exec Browser.go_back s)
    /\ let s' := exec Browser.go_forward (exec Browser.go_back s) in
       history s' = history s
       /\ current_index s' = current_index s
       /\ web_view s' = SetUrl current :: SetUrl previous :: web_view s
       /\ back_btn s' = true
       /\ forward_btn s' = (current_index s <? PySeq.len (history s) - 1).
Proof.
  intros Hok Hpos.
  destruct (go_back_unfold s Hok Hpos) as (previous & Hp & Eb).
  remember (exec Browser.go_back s) as s1 eqn:Es1.
  unfold exec in Es1. rewrite Eb in Es1. cbn [snd] in Es1.
  assert (history_ok s1) as Hok1.
  { rewrite Es1. unfold history_ok. cbn. lia. }
  assert (current_index s1 < PySeq.len (history s1) - 1) as Hlt1.
  { rewrite Es1. cbn. lia. }
  destruct (go_forward_unfold s1 Hok1 Hlt1) as (current & Hc & Ef).
  exists previous, current.
  assert (history s1 = history s) as Hh by (rewrite Es1; reflexivity).
  assert (current_index s1 = current_index s - 1) as Hi
    by (rewrite Es1; reflexivity).
  rewrite Hh, Hi in Hc.
  replace (current_index s - 1 + 1) with (current_index s) in Hc by lia.
  split; [exact Hp|]. split; [exact Hc|].
  split; [exists tt; now rewrite Eb|].
  split; [exists tt; now rewrite Ef|].
  cbv zeta. unfold exec. rewrite Ef. cbn [snd].
  cbn [history current_index back_btn forward_btn web_view set_forward_btn
         set_back_btn set_current_index engine].
  rewrite Hh, Hi.
  replace (current_index s - 1 + 1) with (current_index s) by lia.
  repeat split.
  - rewrite Es1. reflexivity.
  - apply Z.ltb_lt. lia.
Qed.

Lemma go_back_then_go_forward_witness :
  let s := Browser.run [Type_ "a"; Go; Type_ "b"; Go] (Browser.__init__ rng0) in
  let s' := exec Browser.go_forward (exec Browser.go_back s) in
  history s' = ["https://a"; "https://b"] /\ current_index s' = 1
  /\ web_view s' = SetUrl "https://b" :: SetUrl "https://a" :: web_view s.
Proof.
  cbv zeta.
  destruct (go_back_then_go_forward
              (Browser.run [Type_ "a"; Go; Type_ "b"; Go]
                 (Browser.__init__ rng0)))
    as (previous & current & Hp & Hc & _ & _ & Hh & Hi & Hw & _).
  - vm_compute. split; [intros H; discriminate H | reflexivity].
  - vm_compute. reflexivity.
  - vm_compute in Hp, Hc.
    injection Hp as <-. injection Hc as <-.
    rewrite Hh, Hi, Hw. vm_compute. repeat split.
Defined.

Lemma run_app (evs1 evs2 : list Event) (s : PrivacyBrowser) :
  Browser.run (evs1 ++ evs2) s = Browser.run evs2 (Browser.run evs1 s).
Proof.
  revert s. induction evs1 as [|e evs1 IH]; intros s; [reflexivity|].
  cbn [app Browser.run]. apply IH.
Qed.

Lemma back_presses (n : nat) (s : PrivacyBrowser) :
  history_ok s ->
  let s' := Browser.run (repeat Back n) s in
  history s' = history s
  /\ current_index s'
     = Z.max (Z.min (current_index s) 0) (current_index s - Z.of_nat n).
Proof.
  revert s. induction n as [|n IH]; intros s Hok; unfold history_ok in *; cbv zeta.
  - cbn [repeat Browser.run]. split; [reflexivity|lia].
  - cbn [repeat Browser.run Browser.handle].
    destruct (Z_lt_le_dec 0 (current_index s)) as [Hpos|Hle].
    + destruct (go_back_unfold s Hok Hpos) as (url & _ & E).
      unfold exec. rewrite E. cbn [snd].
      match goal with |- context [Browser.run _ ?t] =>
        destruct (IH t) as [Hh Hi] end.
      { unfold history_ok. cbn. lia. }
      rewrite Hh, Hi. cbn. split; [reflexivity|lia].
    + unfold exec. rewrite (go_back_first s Hle). cbn [snd].
      destruct (IH s Hok) as [Hh Hi]. rewrite Hh, Hi.
      split; [reflexivity|lia].
Qed.

(** X6. Pressing Back [n] times never touches the history and stops at
    the first entry: from index [i] the index ends at [max 0 (i - n)],
    and stays [-1] in an empty history. *)
Theorem go_back_saturates (n : nat) (s : PrivacyBrowser) :
  -1 <= current_index s < PySeq.len (history s) ->
  let s' := Browser.run (repeat Back n) s in
  history s' = history s
  /\ current_index s'
     = Z.max (Z.min (current_index s) 0) (current_index s - Z.of_nat n).
Proof. exact (back_presses n s). Qed.


Lemma go_back_saturates_witness :
  let s := Browser.run [Type_ "a"; Go; Type_ "b"; Go; Type_ "c"; Go]
             (Browser.__init__ rng0) in
  current_index s = 2
  /\ current_index (Browser.run (repeat Back 5) s) = 0
  /\ history (Browser.run (repeat Back 5) s) = history s.
Proof.
  cbv zeta.
  destruct (go_back_saturates 5
              (Browser.run [Type_ "a"; Go; Type_ "b"; Go; Type_ "c"; Go]
                 (Browser.__init__ rng0))) as [Hh Hi].
  - vm_compute. split; [intros H; discriminate H | reflexivity].
  - split; [vm_compute; reflexivity|]. split; [|exact Hh].
    rewrite Hi. vm_compute. reflexivity.
Defined.

Lemma forward_presses (n : nat) (s : PrivacyBrowser) :
  history_ok s ->
  let s' := Browser.run (repeat Forward n) s in
  history s' = history s
  /\ current_index s'
     = Z.min (PySeq.len (history s) - 1) (current_index s + Z.of_nat n).
Proof.
  revert s. induction n as [|n IH]; intros s Hok; unfold history_ok in *; cbv zeta.
  - cbn [repeat Browser.run]. split; [reflexivity|lia].
  - cbn [repeat Browser.run Browser.handle].
    destruct (Z_lt_le_dec (current_index s) (PySeq.len (history s) - 1))
      as [Hlt|Hle].
    + destruct (go_forward_unfold s Hok Hlt) as (url & _ & E).
      unfold exec. rewrite E. cbn [snd].
      match goal with |- context [Browser.run _ ?t] =>
        destruct (IH t) as [Hh Hi] end.
      { unfold history_ok. cbn. lia. }
      rewrite Hh, Hi. cbn. split; [reflexivity|lia].
    + unfold exec. rewrite (go_forward_last s Hle). cbn [snd].
      destruct (IH s Hok) as [Hh Hi]. rewrite Hh, Hi.
      split; [reflexivity|lia].
Qed.

(** X7. Pressing Forward [n] times never touches the history and stops at
    the last entry: from index [i] the index ends at
    [min (length - 1) (i + n)]. *)
Theorem go_forward_saturates (n : nat) (s : PrivacyBrowser) :
  -1 <= current_index s < PySeq.len (history s) ->
  let s' := Browser.run (repeat Forward n) s in
  history s' = history s
  /\ current_index s'
     = Z.min (PySeq.len (history s) - 1) (current_index s + Z.of_nat n).
Proof. exact (forward_presses n s). Qed.


Lemma go_forward_saturates_witness :
  let s := Browser.run [Type_ "a"; Go; Type_ "b"; Go; Type_ "c"; Go;
                        Back; Back] (Browser.__init__ rng0) in
  current_index s = 0
  /\ current_index (Browser.run (repeat Forward 5) s) = 2
  /\ history (Browser.run (repeat Forward 5) s) = history s.
Proof.
  cbv zeta.
  destruct (go_forward_saturates 5
              (Browser.run [Type_ "a"; Go; Type_ "b"; Go; Type_ "c"; Go;
                            Back; Back] (Browser.__init__ rng0)))
    as [Hh Hi].
  - vm_compute. split; [intros H; discriminate H | reflexivity].
  - split; [vm_compute; reflexivity|]. split; [|exact Hh].
    rewrite Hi. vm_compute. reflexivity.
Defined.

(** The events of typing each text and pressing Go. *)
Definition navigations (texts : list string) : list Event :=
  flat_map (fun text => [Type_ text; Go]) texts.

Lemma run_navigations (texts : list string) (s : PrivacyBrowser) :
  current_index s = PySeq.len (history s) - 1 ->
  let s' := Browser.run (navigations texts) s in
  history s' = history s ++ map Browser.normalize texts
  /\ current_index s' = PySeq.len (history s') - 1.
Proof.
  revert s. induction texts as [|text texts IH]; intros s Hend; cbv zeta.
  - cbn. rewrite app_nil_r. auto.
  - cbn [navigations flat_map app Browser.run Browser.handle].
    change (exec (modify (setText text)) s) with (setText text s).
    fold (navigations texts).
    assert (exec Browser.load_url (setText text s)
            = exec Browser.update_navigation_buttons
                (set_current_index
                   (PySeq.len (history s ++ [Browser.normalize text]) - 1)
                   (set_history (history s ++ [Browser.normalize text])
                      (engine (SetUrl (Browser.normalize text))
                         (setText text s))))) as E.
    { unfold exec. rewrite load_url_unfold, add_to_history_unfold.
      cbv zeta. cbn [history current_index engine setText address_bar].
      replace (current_index s <? PySeq.len (history s) - 1) with false
        by (symmetry; apply Z.ltb_ge; lia).
      reflexivity. }
    rewrite E. unfold exec.
    rewrite update_navigation_buttons_unfold. cbn [snd].
    match goal with |- context [Browser.run _ ?t] =>
      destruct (IH t) as [Hh Hi] end.
    { reflexivity. }
    rewrite Hi, Hh. cbn [history set_forward_btn set_back_btn
                           set_current_index set_history].
    rewrite <- app_assoc. auto.
Qed.

(** X8. After [n] navigations typed into a fresh window of browser.py the
    history is the list of the normalised texts, the index is on the last
    one, the back arrow is enabled exactly when [n > 1] and the forward
    arrow is disabled. *)
Theorem after_navigations (r : Rng) (texts : list string) :
  let s := Browser.run (navigations texts) (Browser.__init__ r) in
  history s = map Browser.normalize texts
  /\ current_index s = PySeq.len texts - 1
  /\ history s !! Z.to_nat (current_index s) = last (map Browser.normalize texts)
  /\ back_btn s = (1 <? PySeq.len texts)
  /\ forward_btn s = false.
Proof.
  cbv zeta.
  destruct (run_navigations texts (Browser.__init__ r)) as [Hh Hi];
    [reflexivity|].
  destruct (run_window_ok (navigations texts) _ (init_window_ok r))
    as [_ Hb Hf _].
  cbn [history Browser.__init__ app] in Hh.
  assert (PySeq.len (history (Browser.run (navigations texts)
                                (Browser.__init__ r)))
          = PySeq.len texts) as Hl.
  { rewrite Hh. unfold PySeq.len. now rewrite length_map. }
  rewrite Hb, Hf, Hi, Hl, Hh.
  split; [reflexivity|]. split; [reflexivity|]. split; [|split].
  - rewrite last_lookup, length_map. f_equal. unfold PySeq.len. lia.
  - destruct (0 <? PySeq.len texts - 1) eqn:E1;
      destruct (1 <? PySeq.len texts) eqn:E2; try reflexivity;
      [apply Z.ltb_lt in E1; apply Z.ltb_ge in E2
      |apply Z.ltb_ge in E1; apply Z.ltb_lt in E2]; lia.
  - apply Z.ltb_ge. lia.
Qed.

(** *** What a wheel event does *)

Lemma wheelEvent_agree (s : PrivacyBrowser) (delta_x delta_y : Z) :
  window_ok s ->
  exec (SwipeWebView.wheelEvent_broken delta_x delta_y) s
  = exec (SwipeWebView.wheelEvent delta_x delta_y) s.
Proof.
  intros [Hi Hb Hf He].
  unfold exec, SwipeWebView.wheelEvent, SwipeWebView.wheelEvent_broken,
    SwipeWebView.swipe_threshold.
  destruct (delta_x =? 0) eqn:E0.
  - apply Z.eqb_eq in E0. subst delta_x. cbn [negb andb].
    replace (100 <? Z.abs 0) with false by reflexivity.
    rewrite andb_false_r. reflexivity.
  - cbn [negb andb].
    destruct ((Z.abs delta_y <? Z.abs delta_x) && (100 <? Z.abs delta_x));
      [|reflexivity].
    unfold bind, gets, when, ret, BrowserBroken.go_back,
      BrowserBroken.go_forward. cbn [fst snd].
    destruct (0 <? delta_x).
    + rewrite Hb. destruct (0 <? current_index s) eqn:E.
      * now destruct (Browser.go_back s) as [[[]|e] s'].
      * apply Z.ltb_ge in E. now rewrite (go_back_first s E).
    + rewrite Hf.
      destruct (current_index s <? PySeq.len (history s) - 1) eqn:E.
      * now destruct (Browser.go_forward s) as [[[]|e] s'].
      * apply Z.ltb_ge in E. now rewrite (go_forward_last s E).
Qed.

(** X9. In every reachable window, of either file, the wheel handler of
    browser_broken.py, which tests the arrows before it moves, leaves
    the window exactly as the handler of browser.py does, which calls
    [go_back] and [go_forward] without a test. *)
Theorem wheelEvent_button_test_redundant :
  (forall r evs delta_x delta_y,
     let s := Browser.run evs (Browser.__init__ r) in
     exec (SwipeWebView.wheelEvent_broken delta_x delta_y) s
     = exec (SwipeWebView.wheelEvent delta_x delta_y) s)
  /\ (forall r cs delta_x delta_y,
        let s := BrowserBroken.run cs (BrowserBroken.__init__ r) in
        exec (SwipeWebView.wheelEvent_broken delta_x delta_y) s
        = exec (SwipeWebView.wheelEvent delta_x delta_y) s).
Proof.
  split; intros r l dx dy; cbv zeta; apply wheelEvent_agree.
  - apply run_window_ok, init_window_ok.
  - apply (run_broken_ok l _ (init_broken_ok r)).
Qed.

(** X10. A wheel event never changes the history and moves the index by
    one step at most.  It moves only when the horizontal delta is larger
    than the vertical one and than the threshold of 100: back for a
    positive delta, forward for a negative one.  Any other event is
    handed on for scrolling with the window untouched. *)
Theorem wheelEvent_moves (s : PrivacyBrowser) (delta_x delta_y : Z) :
  -1 <= current_index s < PySeq.len (history s) ->
  let swipe := Z.abs delta_y < Z.abs delta_x /\ 100 < Z.abs delta_x in
  let s' := exec (SwipeWebView.wheelEvent delta_x delta_y) s in
  returns (SwipeWebView.wheelEvent delta_x delta_y) s
  /\ history s' = history s
  /\ (swipe -> 0 < delta_x ->
      current_index s' = Z.max (Z.min (current_index s) 0) (current_index s - 1))
  /\ (swipe -> delta_x < 0 ->
      current_index s'
      = Z.min (PySeq.len (history s) - 1) (current_index s + 1))
  /\ (~ swipe ->
      SwipeWebView.wheelEvent delta_x delta_y s = (Ok SwipeWebView.Scrolled, s)).
Proof.
  intros Hok. cbv zeta.
  unfold exec, returns, SwipeWebView.wheelEvent, SwipeWebView.swipe_threshold.
  destruct ((Z.abs delta_y <? Z.abs delta_x) && (100 <? Z.abs delta_x))
    eqn:Esw.
  - apply andb_true_iff in Esw as [E1 E2].
    apply Z.ltb_lt in E1, E2.
    unfold bind, ret.
    destruct (0 <? delta_x) eqn:Ex.
    + apply Z.ltb_lt in Ex.
      destruct (back_presses 1 s Hok) as [Hh Hi].
      cbn [repeat Browser.run Browser.handle] in Hh, Hi. unfold exec in Hh, Hi.
      destruct (Z_lt_le_dec 0 (current_index s)) as [Hpos|Hle].
      * destruct (go_back_unfold s Hok Hpos) as (url & _ & E).
        rewrite E in *. cbn [fst snd] in *.
        split; [now eexists|]. split; [exact Hh|].
        split; [intros _ _; exact Hi|]. split; [intros _ ?; lia|].
        intros Hn. exfalso. apply Hn. lia.
      * rewrite (go_back_first s Hle) in *. cbn [fst snd] in *.
        split; [now eexists|]. split; [reflexivity|].
        split; [intros _ _; exact Hi|]. split; [intros _ ?; lia|].
        intros Hn. exfalso. apply Hn. lia.
    + apply Z.ltb_ge in Ex.
      destruct (forward_presses 1 s Hok) as [Hh Hi].
      cbn [repeat Browser.run Browser.handle] in Hh, Hi. unfold exec in Hh, Hi.
      destruct (Z_lt_le_dec (current_index s) (PySeq.len (history s) - 1))
        as [Hlt|Hle].
      * destruct (go_forward_unfold s Hok Hlt) as (url & _ & E).
        rewrite E in *. cbn [fst snd] in *.
        split; [now eexists|]. split; [exact Hh|].
        split; [intros _ ?; lia|]. split; [intros _ _; exact Hi|].
        intros Hn. exfalso. apply Hn. lia.
      * rewrite (go_forward_last s Hle) in *. cbn [fst snd] in *.
        split; [now eexists|]. split; [reflexivity|].
        split; [intros _ ?; lia|]. split; [intros _ _; exact Hi|].
        intros Hn. exfalso. apply Hn. lia.
  - unfold ret. cbn [fst snd].
    split; [now eexists|]. split; [reflexivity|].
    apply andb_false_iff in Esw.
    split; [|split].
    + intros [H1 H2] _. destruct Esw as [E|E]; apply Z.ltb_ge in E; lia.
    + intros [H1 H2] _. destruct Esw as [E|E]; apply Z.ltb_ge in E; lia.
    + reflexivity.
Qed.

Lemma wheelEvent_moves_witness :
  let s := Browser.run [Type_ "a"; Go; Type_ "b"; Go] (Browser.__init__ rng0) in
  current_index s = 1
  /\ current_index (exec (SwipeWebView.wheelEvent 240 10) s) = 0
  /\ history (exec (SwipeWebView.wheelEvent 240 10) s) = history s.
Proof.
  cbv zeta.
  destruct (wheelEvent_moves
              (Browser.run [Type_ "a"; Go; Type_ "b"; Go]
                 (Browser.__init__ rng0)) 240 10)
    as (_ & Hh & Hb & _).
  - vm_compute. split; [intros H; discriminate H | reflexivity].
  - split; [vm_compute; reflexivity|]. split; [|exact Hh].
    rewrite Hb; [vm_compute; reflexivity | simpl; lia | lia].
Defined.

(** ** Refresh *)





(** ** What [load_url] makes of a text *)

Lemma rstrip_cons (c : ascii) (s : string) :
  PyStr.isspace c = false ->
  PyStr.rstrip (String c s) = String c (PyStr.rstrip s).
Proof.
  intros H. cbn [PyStr.rstrip]. rewrite H. now destruct (PyStr.rstrip s).
Qed.

Lemma rstrip_idem (s : string) : PyStr.rstrip (PyStr.rstrip s) = PyStr.rstrip s.
Proof.
  induction s as [|c s IH]; [reflexivity|].
  cbn [PyStr.rstrip]. destruct (PyStr.rstrip s) as [|d r] eqn:E.
  - destruct (PyStr.isspace c) eqn:Ec; [reflexivity|].
    cbn [PyStr.rstrip]. now rewrite Ec.
  - cbn [PyStr.rstrip] in *. now rewrite IH.
Qed.

Lemma lstrip_head (s : string) :
  PyStr.lstrip s = EmptyString
  \/ exists c t, PyStr.lstrip s = String c t /\ PyStr.isspace c = false.
Proof.
  induction s as [|c s IH]; [now left|].
  cbn [PyStr.lstrip]. destruct (PyStr.isspace c) eqn:E; [exact IH|].
  right. now exists c, s.
Qed.

Lemma lstrip_strip (s : string) : PyStr.lstrip (PyStr.strip s) = PyStr.strip s.
Proof.
  unfold PyStr.strip. destruct (lstrip_head s) as [->|(c & t & -> & Hc)];
    [reflexivity|].
  rewrite (rstrip_cons c t Hc). cbn [PyStr.lstrip]. now rewrite Hc.
Qed.

Lemma strip_idem (s : string) : PyStr.strip (PyStr.strip s) = PyStr.strip s.
Proof.
  unfold PyStr.strip at 1. rewrite lstrip_strip.
  unfold PyStr.strip. apply rstrip_idem.
Qed.

Lemma rstrip_app (p u : string) :
  PyStr.rstrip u = u -> u <> EmptyString ->
  PyStr.rstrip (p +:+ u) = p +:+ u.
Proof.
  intros Hu Hne. induction p as [|c p IH]; [exact Hu|].
  change (String c p +:+ u) with (String c (p +:+ u)).
  cbn [PyStr.rstrip]. rewrite IH.
  destruct (p +:+ u) eqn:E; [|reflexivity].
  destruct p; [|discriminate E]. now destruct Hne.
Qed.

Lemma strip_https (u : string) :
  PyStr.strip u = u -> PyStr.strip ("https://" +:+ u) = "https://" +:+ u.
Proof.
  intros Hu. unfold PyStr.strip.
  change (PyStr.lstrip ("https://" +:+ u)) with ("https://" +:+ u).
  destruct u as [|c u]; [reflexivity|].
  apply rstrip_app; [|discriminate].
  rewrite <- Hu at 2. unfold PyStr.strip.
  rewrite <- Hu, lstrip_strip. unfold PyStr.strip. now rewrite rstrip_idem.
Qed.

(** X12. The URL [load_url] records has no white space around it, and
    typing it again records the same URL: normalising is idempotent. *)
Theorem normalize_idempotent (text : string) :
  PyStr.strip (Browser.normalize text) = Browser.normalize text
  /\ Browser.normalize (Browser.normalize text) = Browser.normalize text.
Proof.
  assert (PyStr.strip (Browser.normalize text) = Browser.normalize text) as HS.
  { unfold Browser.normalize.
    destruct (negb (PyStr.startswith_any _ (PyStr.strip text)));
      [apply strip_https|]; apply strip_idem. }
  split; [exact HS|].
  unfold Browser.normalize at 1. rewrite HS.
  pose proof (normalize_has_scheme text) as H. unfold has_scheme in H.
  now rewrite H.
Qed.

(** ** The fingerprint generator *)

Lemma choice_nil {A : Type} (r : Rng) :
  choice (@nil A) r = (Raised IndexError, r).
Proof. reflexivity. Qed.

(** X13. [generate_random_fingerprint] returns exactly when none of the
    five pools of the protector is empty, and raises [IndexError]
    otherwise.  When it returns it has made fifteen draws, and every field
    of the fingerprint is an element of its pool. *)
Theorem generate_random_fingerprint_pools
    (p : FingerPrintProtector.t) (r : Rng) :
  match FingerPrintProtector.generate_random_fingerprint p r with
  | (Ok f, r') =>
      pools_nonempty p
      /\ r' = Nat.iter 15 advance r
      /\ Fingerprint.user_agent f ∈ FingerPrintProtector.user_agents p
      /\ Fingerprint.screen_resolution f
           ∈ FingerPrintProtector.screen_resolution p
      /\ Fingerprint.timezone f ∈ FingerPrintProtector.timezone p
      /\ Fingerprint.language f ∈ FingerPrintProtector.language p
      /\ Fingerprint.plugins f ∈ FingerPrintProtector.plugins p
      /\ Fingerprint.platform f
           ∈ ["MacIntel"; "Win32"; "Linux x86_64"; "iPhone"; "iPad"]
      /\ Fingerprint.color_depth f ∈ ["8"; "16"; "24"; "32"]
      /\ Fingerprint.pixel_ratio f ∈ [1%Q; 2%Q; (3 # 2)%Q]
      /\ Fingerprint.webgl_vendor f
           ∈ ["Google"; "Mozilla"; "Apple"; "Microsoft"]
      /\ Fingerprint.webgl_renderer f ∈ ["Intel"; "NVIDIA"; "AMD"; "Apple"]
      /\ Fingerprint.webgl_version f ∈ ["1"; "2"; "3"]
      /\ Fingerprint.webgl_extensions f
           ∈ ["WEBGL_depth_texture"; "WEBGL_draw_buffers";
              "WEBGL_lose_context"]
      /\ Fingerprint.webgl_shading_language_version f
           ∈ ["1.0"; "1.1"; "1.2"; "1.3"; "1.4"; "1.5"]
  | (Raised e, r') =>
      e = IndexError /\ ~ pools_nonempty p
      /\ (cursor r <= cursor r' <= cursor r + 4)%nat
  end.
Proof.
  unfold FingerPrintProtector.generate_random_fingerprint, pools_nonempty.
  destruct (FingerPrintProtector.user_agents p) as [|ua uas].
  { unfold bind. rewrite choice_nil. split; [reflexivity|].
    split; [tauto | lia]. }
  destruct (FingerPrintProtector.screen_resolution p) as [|sr srs].
  { unfold bind. rewrite choice_cons, choice_nil. split; [reflexivity|].
    split; [tauto | cbn; lia]. }
  destruct (FingerPrintProtector.timezone p) as [|tz tzs].
  { unfold bind. rewrite !choice_cons, choice_nil. split; [reflexivity|].
    split; [tauto | cbn; lia]. }
  destruct (FingerPrintProtector.language p) as [|la las].
  { unfold bind. rewrite !choice_cons, choice_nil. split; [reflexivity|].
    split; [tauto | cbn; lia]. }
  destruct (FingerPrintProtector.plugins p) as [|pl pls].
  { unfold bind. rewrite !choice_cons, choice_nil. split; [reflexivity|].
    split; [tauto | cbn; lia]. }
  unfold bind. repeat rewrite choice_cons. unfold ret.
  cbn [Fingerprint.user_agent Fingerprint.screen_resolution
         Fingerprint.timezone Fingerprint.language Fingerprint.plugins
         Fingerprint.platform Fingerprint.color_depth Fingerprint.pixel_ratio
         Fingerprint.webgl_vendor Fingerprint.webgl_renderer
         Fingerprint.webgl_version Fingerprint.webgl_extensions
         Fingerprint.webgl_shading_language_version].
  split; [repeat split; discriminate|]. split; [reflexivity|].
  repeat split; apply pick_elem.
Qed.

(** A random source whose draws are all [d]. *)
Definition rng_const (d : nat) : Rng := {| draws := fun _ => d; cursor := 0 |}.

Ltac find_rng d :=
  first
    [ exists (rng_const d); split; vm_compute; reflexivity
    | match d with
      | S ?d' => find_rng d'
      end ].

(** X14. The user agent and the platform of the headers built from a
    random fingerprint are drawn apart: every user agent of the pool can
    come with every platform, an iPhone user agent with [Win32]
    included. *)
Theorem user_agent_and_platform_independent (ua platform : string) :
  ua ∈ FingerPrintProtector.user_agents FingerPrintProtector.__init__ ->
  platform ∈ ["MacIntel"; "Win32"; "Linux x86_64"; "iPhone"; "iPad"] ->
  exists r,
    header_of
      (fst (FingerPrintProtector.get_headers_with_random_fingerprints
              FingerPrintProtector.__init__ r)) "User-Agent" = Some ua
    /\ header_of
         (fst (FingerPrintProtector.get_headers_with_random_fingerprints
                 FingerPrintProtector.__init__ r)) "Sec-CH-UA-Platform"
       = Some (PyStr.dq +:+ platform +:+ PyStr.dq).
Proof.
  intros Hua Hpl.
  apply list_elem_of_In in Hua, Hpl. cbn in Hua, Hpl.
  destruct Hua as [<-|[<-|[<-|[<-|[]]]]];
    destruct Hpl as [<-|[<-|[<-|[<-|[<-|[]]]]]];
    find_rng 19%nat.
Qed.

Lemma user_agent_and_platform_independent_witness :
  exists r,
    header_of
      (fst (FingerPrintProtector.get_headers_with_random_fingerprints
              FingerPrintProtector.__init__ r)) "User-Agent"
    = Some "Mozilla/5.0 (iPhone; CPU iPhone OS 14_0 like Mac OS X) AppleWebKit/605.1.15"
    /\ header_of
         (fst (FingerPrintProtector.get_headers_with_random_fingerprints
                 FingerPrintProtector.__init__ r)) "Sec-CH-UA-Platform"
       = Some (PyStr.dq +:+ "Win32" +:+ PyStr.dq).
Proof.
  apply (user_agent_and_platform_independent
           "Mozilla/5.0 (iPhone; CPU iPhone OS 14_0 like Mac OS X) AppleWebKit/605.1.15"
           "Win32").
  - vm_compute. do 3 apply list_elem_of_further. apply list_elem_of_here.
  - apply list_elem_of_further, list_elem_of_here.
Defined.

(** ** Third-party cookies by substring *)

Lemma append_assoc (a b c : string) : (a +:+ b) +:+ c = a +:+ (b +:+ c).
Proof.
  induction a as [|x a IH]; [reflexivity|].
  change (String x ((a +:+ b) +:+ c) = String x (a +:+ (b +:+ c))).
  now rewrite IH.
Qed.

Lemma append_empty_r (a : string) : a +:+ EmptyString = a.
Proof.
  induction a as [|x a IH]; [reflexivity|].
  change (String x (a +:+ EmptyString) = String x a). now rewrite IH.
Qed.

Lemma contains_trans (a b c : string) :
  PyStr.contains a b = true -> PyStr.contains b c = true ->
  PyStr.contains a c = true.
Proof.
  rewrite !contains_iff. intros (p1 & q1 & ->) (p2 & q2 & ->).
  exists (p2 +:+ p1), (q1 +:+ q2). now rewrite !append_assoc.
Qed.

(** X15. Under [block_third_party] a request with an empty domain accepts
    every cookie, and a request accepts the cookies of its own domain. *)
Theorem block_third_party_empty_and_own (cookie : cookie_manager.Cookie) :
  cookie_manager.should_accept_cookie cookie_manager.__init__ cookie
    EmptyString = true
  /\ cookie_manager.should_accept_cookie cookie_manager.__init__ cookie
       (cookie_manager.domain cookie) = true.
Proof.
  unfold cookie_manager.should_accept_cookie, cookie_manager.__init__.
  cbn [cookie_manager.cookie_policy].
  change (String.eqb "block_third_party" "block_all") with false.
  change (String.eqb "block_third_party" "block_third_party") with true.
  cbv iota. split; apply contains_iff.
  - now exists EmptyString, (cookie_manager.domain cookie).
  - exists EmptyString, EmptyString.
    change (cookie_manager.domain cookie
            = cookie_manager.domain cookie +:+ EmptyString).
    now rewrite append_empty_r.
Qed.

(** X16. Under [block_third_party] acceptance goes down to substrings: a
    cookie accepted for a request domain is accepted for every request
    domain that occurs inside it, whatever the site. *)
Theorem block_third_party_substrings
    (cookie : cookie_manager.Cookie) (request_domain inner : string) :
  cookie_manager.should_accept_cookie cookie_manager.__init__ cookie
    request_domain = true ->
  PyStr.contains inner request_domain = true ->
  cookie_manager.should_accept_cookie cookie_manager.__init__ cookie inner
  = true.
Proof.
  unfold cookie_manager.should_accept_cookie, cookie_manager.__init__.
  cbn [cookie_manager.cookie_policy].
  change (String.eqb "block_third_party" "block_all") with false.
  change (String.eqb "block_third_party" "block_third_party") with true.
  cbv iota. intros H1 H2. exact (contains_trans _ _ _ H2 H1).
Qed.

Lemma block_third_party_substrings_witness :
  cookie_manager.should_accept_cookie cookie_manager.__init__
    {| cookie_manager.domain := "ads.example.com" |} "ample.co" = true.
Proof.
  apply (block_third_party_substrings
           {| cookie_manager.domain := "ads.example.com" |}
           "example.com" "ample.co"); reflexivity.
Defined.

(** ** What the interceptor does to the headers of a request *)

(** The headers [interceptRequest] sets on a request that has none. *)
Definition interceptor_headers : gmap string string :=
  RequestInfo.httpHeaders
    (PrivacyRequestInterceptor.set_headers (RequestInfo.incoming EmptyString)).

Lemma set_headers_union (info : RequestInfo.t) :
  RequestInfo.httpHeaders (PrivacyRequestInterceptor.set_headers info)
  = interceptor_headers ∪ RequestInfo.httpHeaders info.
Proof.
  unfold interceptor_headers. rewrite !set_headers_eq.
  cbn [RequestInfo.httpHeaders RequestInfo.incoming].
  rewrite <- !insert_union_l. now rewrite (left_id ∅ (∪)).
Qed.

Lemma set_headers_fields (info : RequestInfo.t) :
  RequestInfo.requestUrl (PrivacyRequestInterceptor.set_headers info)
  = RequestInfo.requestUrl info
  /\ RequestInfo.blocked (PrivacyRequestInterceptor.set_headers info)
     = RequestInfo.blocked info.
Proof. split; reflexivity. Qed.

Lemma RequestInfo_eq (a b : RequestInfo.t) :
  RequestInfo.requestUrl a = RequestInfo.requestUrl b ->
  RequestInfo.httpHeaders a = RequestInfo.httpHeaders b ->
  RequestInfo.blocked a = RequestInfo.blocked b ->
  a = b.
Proof. destruct a, b. cbn. now intros -> -> ->. Qed.

(** X17. The headers of a request after [interceptRequest] are the eleven
    headers of the interceptor laid over the headers the request had: a
    header of the same name is overwritten.  Intercepting a request twice
    leaves it as intercepting it once. *)
Theorem interceptRequest_overlays (info : RequestInfo.t) :
  let after := fst (PrivacyRequestInterceptor.interceptRequest info) in
  RequestInfo.httpHeaders after
  = interceptor_headers ∪ RequestInfo.httpHeaders info
  /\ size interceptor_headers = 11%nat
  /\ fst (PrivacyRequestInterceptor.interceptRequest after) = after.
Proof.
  cbv zeta. rewrite !interceptRequest_fst.
  split; [apply set_headers_union|]. split; [vm_compute; reflexivity|].
  apply RequestInfo_eq; try reflexivity.
  rewrite !set_headers_union.
  now rewrite (assoc (∪)), (idemp (∪)).
Qed.

(** X18. [interceptRequest] leaves every header alone whose name is not
    one of its eleven, a cookie or a user agent for instance. *)
Theorem interceptRequest_keeps_other_headers
    (info : RequestInfo.t) (name : string) :
  name ∉ [ "Accept"; "Accept-Language"; "Accept-Encoding"; "DNT";
           "Connection"; "Upgrade-Insecure-Requests"; "Sec-Fetch-Dest";
           "Sec-Fetch-Mode"; "Sec-Fetch-Site"; "Sec-Fetch-User";
           "Cache-Control" ] ->
  RequestInfo.httpHeaders
    (fst (PrivacyRequestInterceptor.interceptRequest info)) !! name
  = RequestInfo.httpHeaders info !! name.
Proof.
  intros H. rewrite interceptRequest_fst, set_headers_eq.
  repeat (apply not_elem_of_cons in H as [? H]).
  repeat (rewrite lookup_insert_ne by congruence). reflexivity.
Qed.

Lemma interceptRequest_keeps_other_headers_witness :
  RequestInfo.httpHeaders
    (fst (PrivacyRequestInterceptor.interceptRequest
            {| RequestInfo.requestUrl := "https://example.com/";
               RequestInfo.httpHeaders := {[ "Cookie" := "sid=1" ]};
               RequestInfo.blocked := false |})) !! "Cookie"
  = Some "sid=1".
Proof.
  rewrite (interceptRequest_keeps_other_headers
             {| RequestInfo.requestUrl := "https://example.com/";
                RequestInfo.httpHeaders := {[ "Cookie" := "sid=1" ]};
                RequestInfo.blocked := false |} "Cookie").
  - reflexivity.
  - intros H. apply list_elem_of_In in H. cbn [In] in H.
    repeat (destruct H as [H|H]; [discriminate H|]). exact H.
Defined.

(** ** The compatibility fixes of browser_broken.py *)

(** The two flags of the Google fixes. *)
Definition google_of (s : PrivacyBrowser) : option bool * option bool :=
  (google_fixes_applied s, google_js_applied s).

(** What one call makes of the two flags. *)
Definition google_step (c : BrowserBroken.Call) (s : PrivacyBrowser)
  : option bool * option bool :=
  match c with
  | BrowserBroken.Slot (LoadFinished true) =>
      if PyStr.contains "google.com" (PyStr.lower (current_url s))
         && negb (hasattr (google_fixes_applied s))
      then (Some true, Some true)
      else google_of s
  | _ => google_of s
  end.

Lemma handle_broken_google (c : BrowserBroken.Call) (s : PrivacyBrowser) :
  hasattr (fingerprint_applied s) = true ->
  hasattr (google_js_applied s) = hasattr (google_fixes_applied s) ->
  google_of (exec (BrowserBroken.handle c) s) = google_step c s.
Proof.
  intros H G. destruct c as [e|]; [destruct e|];
    cbn [BrowserBroken.handle google_step].
  - reflexivity.
  - unfold BrowserBroken.load_url, BrowserBroken.add_to_history,
      BrowserBroken.update_navigation_buttons,
      Browser.update_navigation_buttons, google_of.
    py_run. py_cases.
  - unfold BrowserBroken.go_back, Browser.go_back,
      Browser.update_navigation_buttons, getitem, raise, google_of.
    py_run. py_cases.
  - unfold BrowserBroken.go_forward, Browser.go_forward,
      Browser.update_navigation_buttons, getitem, raise, google_of.
    py_run. py_cases.
  - unfold exec, BrowserBroken.refresh_page. rewrite refresh_page_unfold.
    cbn [snd]. now destruct (String.eqb (current_url s) EmptyString).
  - reflexivity.
  - destruct success; [|reflexivity].
    rewrite (on_load_finished_broken_unfold s H). cbv zeta.
    destruct (PyStr.contains "google.com" (PyStr.lower (current_url s)));
      cbn [andb]; [|reflexivity].
    destruct (hasattr (google_fixes_applied s)) eqn:F; cbn [negb];
      [reflexivity|].
    rewrite G. reflexivity.
  - unfold exec. now rewrite apply_fingerprint_protection_applied.
Qed.

Lemma google_step_flags (c : BrowserBroken.Call) (s : PrivacyBrowser) :
  hasattr (google_js_applied s) = hasattr (google_fixes_applied s) ->
  hasattr (snd (google_step c s)) = hasattr (fst (google_step c s)).
Proof.
  intros G. unfold google_step.
  destruct c as [[| | | | | |[]]|]; try exact G.
  now destruct (PyStr.contains _ _ && _).
Qed.

(** A window of browser_broken.py in order, with its two Google flags
    present together or absent together. *)
Definition session_ok (s : PrivacyBrowser) : Prop :=
  broken_ok s /\ hasattr (google_js_applied s) = hasattr (google_fixes_applied s).

Lemma run_session_ok (cs : list BrowserBroken.Call) (s : PrivacyBrowser) :
  session_ok s -> session_ok (BrowserBroken.run cs s).
Proof.
  revert s. induction cs as [|c cs IH]; intros s H; cbn [BrowserBroken.run].
  - exact H.
  - apply IH. destruct H as [B G]. split; [now apply handle_broken_ok|].
    pose proof (handle_broken_google c s (proj2 B) G) as E.
    pose proof (google_step_flags c s G) as F. rewrite <- E in F. exact F.
Qed.

Lemma init_session_ok (r : Rng) : session_ok (BrowserBroken.__init__ r).
Proof.
  split; [apply init_broken_ok|].
  destruct (init_broken_unfold r) as (fingerprint & _ & ->). reflexivity.
Qed.

(** X19. In browser_broken.py the Google fixes are applied once: the two
    flags appear together, set to [True], at the first successful load
    whose current URL contains [google.com] in any letter case, and from
    then on no event changes them; no other event touches them. *)
Theorem google_fixes_applied_once (r : Rng) (cs : list BrowserBroken.Call)
    (c : BrowserBroken.Call) :
  let s := BrowserBroken.run cs (BrowserBroken.__init__ r) in
  (google_of s = (None, None) \/ google_of s = (Some true, Some true))
  /\ google_of (exec (BrowserBroken.handle c) s)
     = match c with
       | BrowserBroken.Slot (LoadFinished true) =>
           if PyStr.contains "google.com" (PyStr.lower (current_url s))
              && negb (hasattr (google_fixes_applied s))
           then (Some true, Some true)
           else google_of s
       | _ => google_of s
       end.
Proof.
  cbv zeta. split.
  - induction cs as [|c' cs IH] using rev_ind.
    + left. destruct (init_broken_unfold r) as (fingerprint & _ & ->).
      reflexivity.
    + assert (forall l t, BrowserBroken.run (l ++ [c']) t
                          = exec (BrowserBroken.handle c')
                              (BrowserBroken.run l t)) as Happ.
      { induction l as [|x l IHl]; intros t; [reflexivity|].
        cbn [app BrowserBroken.run]. apply IHl. }
      rewrite Happ.
      destruct (run_session_ok cs _ (init_session_ok r)) as [[_ B] G].
      rewrite (handle_broken_google c' _ B G). unfold google_step.
      destruct c' as [[| | | | | |[]]|]; try exact IH.
      destruct (PyStr.contains _ _ && _); [now right | exact IH].
  - destruct (run_session_ok cs _ (init_session_ok r)) as [[_ B] G].
    now rewrite (handle_broken_google c _ B G).
Qed.

(** ** The retry cycle ends at the first success *)

Lemma on_load_finished_success (s : PrivacyBrowser) :
  exec (Browser.on_load_finished true) s
  = engine ActivateWindow (engine Raise_ (engine Show (engine Repaint
      (showMessage "Page loaded successfully" s)))).
Proof. reflexivity. Qed.

(** X20. Against an engine whose loads fail [n] times and then succeed,
    the cycle of failure and reload of browser.py ends: [n] reloads are
    made, no load is under way any more, and the status bar tells the
    success. *)
Theorem load_cycle_ends_at_first_success
    (outcomes : nat -> bool) (n k fuel : nat) (s : PrivacyBrowser) :
  (forall j, (j < n)%nat -> outcomes (k + j)%nat = false) ->
  outcomes (k + n)%nat = true ->
  (n < fuel)%nat ->
  let after := load_cycle Browser.on_load_finished outcomes k fuel s in
  snd after = false
  /\ reloads (fst after) = (reloads s + n)%nat
  /\ status_bar (fst after) = "Page loaded successfully".
Proof.
  revert k fuel s. induction n as [|n IH]; intros k fuel s Hfail Hok Hfuel;
    cbv zeta; (destruct fuel as [|fuel]; [lia|]); cbn [load_cycle].
  - rewrite Nat.add_0_r in Hok. rewrite Hok, on_load_finished_success.
    cbn [web_view engine head fst snd status_bar showMessage].
    split; [reflexivity|]. split; [|reflexivity].
    transitivity (reloads s); [reflexivity | lia].
  - assert (outcomes k = false) as Hk
      by (rewrite <- (Nat.add_0_r k); apply Hfail; lia).
    rewrite Hk.
    destruct (on_load_finished_failure s) as [-> _].
    cbn [web_view engine head].
    destruct (IH (S k) fuel
                (engine Reload (showMessage "Failed to load page" s)))
      as (P & R & M).
    + intros j Hj. replace (S k + j)%nat with (k + S j)%nat by lia.
      apply Hfail. lia.
    + replace (S k + n)%nat with (k + S n)%nat by lia. exact Hok.
    + lia.
    + split; [exact P|]. split; [|exact M].
      rewrite R, reloads_failure. lia.
Qed.

Lemma load_cycle_ends_at_first_success_witness :
  let after := load_cycle Browser.on_load_finished (fun k => Nat.leb 2 k)
                 0 5 (Browser.__init__ rng0) in
  snd after = false /\ reloads (fst after) = 2%nat.
Proof.
  cbv zeta.
  destruct (load_cycle_ends_at_first_success (fun k => Nat.leb 2 k)
              2 0 5 (Browser.__init__ rng0)) as (P & R & _).
  - intros j Hj. destruct j as [|[|j]]; [reflexivity | reflexivity | lia].
  - reflexivity.
  - lia.
  - split; [exact P | exact R].
Defined.

(** ** browser.py applies no privacy protection *)

(** The part of a window the privacy methods write. *)
Definition privacy_of (s : PrivacyBrowser) :=
  (fingerprint_applied s, current_fingerprint s, google_fixes_applied s,
   google_js_applied s, random s, user_agents_set (web_view s)).

Lemma handle_privacy (e : Event) (s : PrivacyBrowser) :
  privacy_of (exec (Browser.handle e) s) = privacy_of s.
Proof.
  destruct e; cbn [Browser.handle]; try reflexivity.
  - unfold Browser.load_url, Browser.add_to_history,
      Browser.update_navigation_buttons, privacy_of. py_run. py_cases.
  - unfold Browser.go_back, Browser.update_navigation_buttons, getitem, raise,
      privacy_of. py_run. py_cases.
  - unfold Browser.go_forward, Browser.update_navigation_buttons, getitem,
      raise, privacy_of. py_run. py_cases.
  - unfold exec. rewrite refresh_page_unfold. cbn [snd].
    now destruct (String.eqb (current_url s) EmptyString).
  - now destruct success.
Qed.

(** X21. A window of browser.py never applies a privacy protection:
    whatever the events, no fingerprint is drawn or stored, no flag is
    set, the random source is not used, and the one user agent ever set
    on the engine is the Chrome 120 string of [setup_ui]. *)
Theorem browser_applies_no_protection (r : Rng) (evs : list Event) :
  let s := Browser.run evs (Browser.__init__ r) in
  fingerprint_applied s = None
  /\ current_fingerprint s = None
  /\ google_fixes_applied s = None
  /\ google_js_applied s = None
  /\ random s = r
  /\ user_agents_set (web_view s)
     = ["Mozilla/5.0 (Macintosh; Intel Mac OS X 10_15_7) AppleWebKit/537.36 (KHTML, like Gecko) Chrome/120.0.0.0 Safari/537.36"].
Proof.
  cbv zeta.
  assert (forall l t, privacy_of (Browser.run l t) = privacy_of t) as H.
  { induction l as [|e l IH]; intros t; [reflexivity|].
    cbn [Browser.run]. now rewrite IH, handle_privacy. }
  specialize (H evs (Browser.__init__ r)). unfold privacy_of in H.
  cbn [fingerprint_applied current_fingerprint google_fixes_applied
         google_js_applied random web_view Browser.__init__ user_agents_set]
    in H.
  injection H as H1 H2 H3 H4 H5 H6. auto 10.
Qed.

(** ** Cleaning is switched off *)

